(** * pg-flight-recorder benchmark analysis: a shallow embedding

    The three analysis scripts of the benchmark framework
    ([benchmark/lib/compare.py], [benchmark/lib/ddl_analyzer.py] and
    [benchmark2/lib/statistical_analysis.py]) are embedded as Rocq
    functions and their documented behaviour is proved or refuted.

    Number model.  Python [int] values are [Z].  Python [float] values
    are exact rationals [Q]: comparisons, [+], [-], [*] and [/] are the
    exact operations, so rounding, infinities and NaN are outside the
    model.  The theorems therefore state what rounding preserves: which
    branch is taken, which exception is raised, counts, key sets, signs
    and the order of values that are selected (not recomputed) from the
    samples.  Where a theorem gives a value by a formula, the formula is
    the expression of the code, to be read with the rounding of the
    code.  Identities that hold only in exact arithmetic, and the order
    of interpolated cut points, are not stated.  The two float
    primitives that have no rational counterpart, [math.sqrt] and
    fixed-point formatting ([f"{x:.2f}"]), are section variables.
    Exceptions are values of [result]. *)

From Stdlib Require Import ZArith QArith Qabs Lqa Lia List String Ascii.
From Stdlib Require Import Sorting.Sorted.
From stdpp Require Import gmap strings pretty.
Import ListNotations.

Local Open Scope Q_scope.
Local Open Scope string_scope.

(** ** Python runtime *)

Inductive exn : Set :=
| ZeroDivisionError
| StatisticsError
| ValueError
| IndexError
| KeyError.

Inductive result (A : Type) : Type :=
| Ok (a : A)
| Raise (e : exn).

Arguments Ok {A} a.
Arguments Raise {A} e.

Definition bind {A B : Type} (c : result A) (k : A -> result B) : result B :=
  match c with
  | Ok a => k a
  | Raise e => Raise e
  end.

Notation "'let*' x ':=' c 'in' k" := (bind c (fun x => k))
  (at level 10, x pattern, c at level 100, k at level 200).

(** [x < y] and [x == y] on floats, as booleans. *)
Definition Qltb (x y : Q) : bool := if Qlt_le_dec x y then true else false.
Definition Qeqb (x y : Q) : bool := if Qeq_dec x y then true else false.

(** [a / b] on floats (or on ints, where it also yields a float). *)
Definition truediv (a b : Q) : result Q :=
  if Qeqb b 0 then Raise ZeroDivisionError else Ok (a / b).

(** [a // b] on ints; [Z.div] rounds toward minus infinity like Python. *)
Definition floordiv (a b : Z) : result Z :=
  if Z.eq_dec b 0%Z then Raise ZeroDivisionError else Ok (a / b)%Z.

(** [int(x)]: truncation toward zero. *)
Definition int_ (x : Q) : Z := Z.quot (Qnum x) (Zpos (Qden x)).

(** [len(l)] as a Python int. *)
Definition len {A : Type} (l : list A) : Z := Z.of_nat (length l).

(** [l[i]], negative indices counting from the end. *)
Definition getitem {A : Type} (l : list A) (i : Z) : result A :=
  let j := if (i <? 0)%Z then (i + len l)%Z else i in
  if (j <? 0)%Z then Raise IndexError
  else match nth_error l (Z.to_nat j) with
       | Some x => Ok x
       | None => Raise IndexError
       end.

(** [d[key]] on a dict. *)
Definition dict_getitem {V : Type} (d : gmap string V) (key : string)
    : result V :=
  match d !! key with
  | Some v => Ok v
  | None => Raise KeyError
  end.

(** [range(a, b)]. *)
Definition range (a b : Z) : list Z :=
  map (fun k => (a + Z.of_nat k)%Z) (seq 0 (Z.to_nat (b - a))).

(** [sorted(l)] on floats: a stable insertion sort. *)
Fixpoint insert_sorted (x : Q) (l : list Q) : list Q :=
  match l with
  | [] => [x]
  | y :: t => if Qltb y x then y :: insert_sorted x t else x :: y :: t
  end.

Fixpoint sorted (l : list Q) : list Q :=
  match l with
  | [] => []
  | x :: t => insert_sorted x (sorted t)
  end.

(** [min(l)] and [max(l)]: the first smallest (largest) element. *)
Definition py_min (l : list Q) : result Q :=
  match l with
  | [] => Raise ValueError
  | x :: t => Ok (fold_left (fun m y => if Qltb y m then y else m) t x)
  end.

Definition py_max (l : list Q) : result Q :=
  match l with
  | [] => Raise ValueError
  | x :: t => Ok (fold_left (fun m y => if Qltb m y then y else m) t x)
  end.

Definition sum (l : list Q) : Q := fold_left Qplus l 0.

(** [s.lower()] on ASCII text. *)
Definition lower_ascii (c : ascii) : ascii :=
  let n := nat_of_ascii c in
  if ((65 <=? n) && (n <=? 90))%nat then ascii_of_nat (n + 32) else c.

Fixpoint lower (s : string) : string :=
  match s with
  | EmptyString => EmptyString
  | String c t => String (lower_ascii c) (lower t)
  end.

(** [needle in hay] on strings. *)
Fixpoint contains (needle hay : string) : bool :=
  String.prefix needle hay ||
  match hay with
  | EmptyString => false
  | String _ t => contains needle t
  end.

(** A sample rational stand-in for [math.sqrt]: two Babylonian steps
    from the guess 1.  It is used only to run the definitions below on
    concrete inputs. *)
Definition babylonian_sqrt (x : Q) : Q :=
  let g := (x + 1) / 2 in Qred ((g + x / g) / 2).

(** A sample stand-in for [f"{x:.Nf}"]: the integer part only. *)
Definition show_int_part (digits : nat) (x : Q) : string :=
  if Qltb x 0 then "-" ++ pretty (Z.abs (int_ x)) else pretty (int_ x).

Section Engine.

(** [math.sqrt] on a non-negative float. *)
Variable math_sqrt : Q -> Q.

(** [format_fixed d x] is [f"{x:.df}"]. *)
Variable format_fixed : nat -> Q -> string.

(** ** The [statistics] module of the Python standard library

    Modelled after CPython's [Lib/statistics.py]. *)

Definition mean (data : list Q) : result Q :=
  match data with
  | [] => Raise StatisticsError
  | _ => Ok (sum data / inject_Z (len data))
  end.

Definition median (data : list Q) : result Q :=
  let data := sorted data in
  let n := len data in
  if (n =? 0)%Z then Raise StatisticsError
  else if (n mod 2 =? 1)%Z then Ok (nth (Z.to_nat (n / 2)) data 0)
  else
    let i := (n / 2)%Z in
    Ok ((nth (Z.to_nat (i - 1)) data 0 + nth (Z.to_nat i) data 0) / 2).

(** Sum of squared deviations from the mean. *)
Definition sum_sq_dev (data : list Q) : Q :=
  let xbar := sum data / inject_Z (len data) in
  sum (map (fun x => (x - xbar) * (x - xbar)) data).

Definition stdev (data : list Q) : result Q :=
  let n := len data in
  if (n <? 2)%Z then Raise StatisticsError
  else Ok (math_sqrt (sum_sq_dev data / inject_Z (n - 1))).

(** One cut point of [quantiles(data, n=n)] with the default
    [method='exclusive'], for sorted [data] of length [ld]. *)
Definition quantile_point (data : list Q) (ld n i : Z) : Q :=
  let m := (ld + 1)%Z in
  let j := (i * m / n)%Z in
  let j := if (j <? 1)%Z then 1%Z
           else if (j >? ld - 1)%Z then (ld - 1)%Z else j in
  let delta := (i * m - j * n)%Z in
  (nth (Z.to_nat (j - 1)) data 0 * inject_Z (n - delta)
   + nth (Z.to_nat j) data 0 * inject_Z delta) / inject_Z n.

Definition quantiles (data : list Q) (n : Z) : result (list Q) :=
  if (n <? 1)%Z then Raise StatisticsError
  else
    let data := sorted data in
    let ld := len data in
    if (ld <? 2)%Z then Raise StatisticsError
    else Ok (map (quantile_point data ld n) (range 1 n)).

(** ** benchmark/lib/compare.py *)

Definition calculate_impact (baseline test : Q) : result Q :=
  if Qeqb baseline 0 then Ok 0.0
  else
    let* q := truediv (test - baseline) baseline in
    Ok (q * 100.0).

Definition format_impact (impact : Q) : string :=
  let sign := if Qltb impact 0 then "" else "+" in
  sign ++ format_fixed 2 impact ++ "%".

(** The two counter snapshots under [run['database_stats']]. *)
Record database_stats : Type := {
  start : gmap string Z;
  end_ : gmap string Z
}.

Record stat_comparison : Type := {
  sc_baseline : Z;
  sc_test : Z;
  sc_impact_pct : Q;
  sc_impact_formatted : string
}.

Definition delta (start end_ : gmap string Z) (key : string) : result Z :=
  let* e := dict_getitem end_ key in
  let* s := dict_getitem start key in
  Ok (e - s)%Z.

Definition database_stat_keys : list string :=
  ["xact_commit"; "xact_rollback"; "blks_read"; "blks_hit";
   "tup_returned"; "tup_fetched"; "tup_inserted"; "tup_updated"].

Fixpoint compare_database_stats_loop (baseline test : database_stats)
    (keys : list string) (metrics : gmap string stat_comparison)
    : result (gmap string stat_comparison) :=
  match keys with
  | [] => Ok metrics
  | key :: rest =>
      let* baseline_delta := delta (start baseline) (end_ baseline) key in
      let* test_delta := delta (start test) (end_ test) key in
      let* impact :=
        calculate_impact (inject_Z baseline_delta) (inject_Z test_delta) in
      compare_database_stats_loop baseline test rest
        (<[key := {| sc_baseline := baseline_delta;
                     sc_test := test_delta;
                     sc_impact_pct := impact;
                     sc_impact_formatted := format_impact impact |}]> metrics)
  end.

Definition compare_database_stats (baseline test : database_stats)
    : result (gmap string stat_comparison) :=
  compare_database_stats_loop baseline test database_stat_keys ∅.

Definition assess_impact (throughput_impact latency_p95_impact : Q) : string :=
  if Qltb (Qabs throughput_impact) 2
     && Qltb (Qabs latency_p95_impact) 2
  then "✓ NEGLIGIBLE (<2% impact)"
  else if Qltb (Qabs throughput_impact) 5
          && Qltb (Qabs latency_p95_impact) 5
  then "✓ LOW (<5% impact)"
  else if Qltb (Qabs throughput_impact) 10
          && Qltb (Qabs latency_p95_impact) 10
  then "⚠ MODERATE (<10% impact)"
  else if Qltb (Qabs throughput_impact) 20
          && Qltb (Qabs latency_p95_impact) 20
  then "⚠ HIGH (<20% impact)"
  else "✗ SEVERE (>20% impact)".

(** A loaded results file, as far as the comparisons read it:
    [run['throughput']], [run['latency_ms']] and
    [run['database_stats']]. *)
Record run_result : Type := {
  throughput : gmap string Q;
  latency_ms : gmap string Q;
  run_database_stats : database_stats
}.

Record throughput_comparison : Type := {
  tc_baseline_tps : Q;
  tc_test_tps : Q;
  tc_impact_pct : Q;
  tc_impact_formatted : string
}.

Definition compare_throughput (baseline test : run_result)
    : result throughput_comparison :=
  let* baseline_tps := dict_getitem (throughput baseline) "tps" in
  let* test_tps := dict_getitem (throughput test) "tps" in
  let* impact := calculate_impact baseline_tps test_tps in
  Ok {| tc_baseline_tps := baseline_tps; tc_test_tps := test_tps;
        tc_impact_pct := impact;
        tc_impact_formatted := format_impact impact |}.

Record latency_comparison : Type := {
  lc_baseline_ms : Q;
  lc_test_ms : Q;
  lc_impact_pct : Q;
  lc_impact_formatted : string
}.

Definition latency_metric_names : list string :=
  ["mean"; "p50"; "p95"; "p99"; "max"].

Fixpoint compare_latency_loop (baseline test : run_result)
    (names : list string) (metrics : gmap string latency_comparison)
    : result (gmap string latency_comparison) :=
  match names with
  | [] => Ok metrics
  | metric :: rest =>
      let* baseline_val := dict_getitem (latency_ms baseline) metric in
      let* test_val := dict_getitem (latency_ms test) metric in
      let* impact := calculate_impact baseline_val test_val in
      compare_latency_loop baseline test rest
        (<[metric := {| lc_baseline_ms := baseline_val;
                        lc_test_ms := test_val;
                        lc_impact_pct := impact;
                        lc_impact_formatted := format_impact impact |}]>
           metrics)
  end.

Definition compare_latency (baseline test : run_result)
    : result (gmap string latency_comparison) :=
  compare_latency_loop baseline test latency_metric_names ∅.

(** The [comparisons] dict that [main] builds. *)
Record comparisons : Type := {
  cmp_throughput : throughput_comparison;
  cmp_latency : gmap string latency_comparison;
  cmp_database_stats : gmap string stat_comparison
}.

(** The comparison steps of [main]: the three comparisons in order and
    the assessment printed in the summary, without argument parsing,
    file access and printing. *)
Definition compare_runs (baseline test : run_result)
    : result (comparisons * string) :=
  let* t := compare_throughput baseline test in
  let* l := compare_latency baseline test in
  let* d := compare_database_stats (run_database_stats baseline)
              (run_database_stats test) in
  let* p95 := dict_getitem l "p95" in
  Ok ({| cmp_throughput := t; cmp_latency := l; cmp_database_stats := d |},
      assess_impact (tc_impact_pct t) (lc_impact_pct p95)).

(** ** benchmark/lib/ddl_analyzer.py *)

Record DDLOperation : Type := {
  operation_id : Z;
  ddl_type : string;
  start_time : string;
  end_time : string;
  duration_ms : Q;
  was_blocked : bool;
  blocked_by : option string;
  lock_wait_ms : option Q
}.

(** Truth value of an optional string: [None] and [""] are falsy. *)
Definition truthy (s : option string) : bool :=
  match s with
  | None => false
  | Some EmptyString => false
  | Some _ => true
  end.

Definition blocked_by_flight_recorder (self : DDLOperation) : bool :=
  if negb (was_blocked self) || negb (truthy (blocked_by self)) then false
  else
    match blocked_by self with
    | Some agent => contains "flight_recorder" (lower agent)
    | None => false
    end.

Record DDLAnalyzer : Type := {
  operations : list DDLOperation;
  total_count : Z
}.

(** [DDLAnalyzer.__init__], on records that are already typed. *)
Definition DDLAnalyzer_init (ops : list DDLOperation) : DDLAnalyzer :=
  {| operations := ops; total_count := len ops |}.

Definition percentile (values : list Q) (p : Q) : result Q :=
  match values with
  | [] => Ok 0.0
  | _ :: _ =>
      if (1 <? len values)%Z
      then
        let* qs := quantiles (sorted values) 100 in
        getitem qs (int_ p - 1)
      else getitem values 0
  end.

Record duration_summary : Type := {
  ds_count : Z;
  ds_min : Q;
  ds_max : Q;
  ds_mean : Q;
  ds_median : Q;
  ds_p95 : Q;
  ds_p99 : Q;
  ds_stddev : Q
}.

Definition duration_stats (self : DDLAnalyzer)
    (operations_arg : option (list DDLOperation)) : result duration_summary :=
  let ops := match operations_arg with
             | Some o => o
             | None => operations self
             end in
  match ops with
  | [] =>
      Ok {| ds_count := 0; ds_min := 0; ds_max := 0; ds_mean := 0;
            ds_median := 0; ds_p95 := 0; ds_p99 := 0; ds_stddev := 0 |}
  | _ :: _ =>
      let durations := map duration_ms ops in
      let* mn := py_min durations in
      let* mx := py_max durations in
      let* mu := mean durations in
      let* md := median durations in
      let* p95 := percentile durations 95 in
      let* p99 := percentile durations 99 in
      let* sd := if (1 <? len durations)%Z then stdev durations else Ok 0 in
      Ok {| ds_count := len durations; ds_min := mn; ds_max := mx;
            ds_mean := mu; ds_median := md; ds_p95 := p95; ds_p99 := p99;
            ds_stddev := sd |}
  end.

(** The expression [(count / self.total_count * 100) if
    self.total_count > 0 else 0], which the analyzer repeats for every
    percentage it reports. *)
Definition share_pct (count total : Z) : result Q :=
  if (0 <? total)%Z
  then
    let* q := truediv (inject_Z count) (inject_Z total) in
    Ok (q * 100)
  else Ok 0.

Record blocking_report : Type := {
  total_blocked : Z;
  total_blocked_pct : Q;
  fr_blocked : Z;
  fr_blocked_pct : Q;
  blocked_stats : duration_summary;
  fr_blocked_stats : duration_summary
}.

Definition blocking_analysis (self : DDLAnalyzer) : result blocking_report :=
  let blocked := List.filter was_blocked (operations self) in
  let fr := List.filter blocked_by_flight_recorder (operations self) in
  let* blocked_pct := share_pct (len blocked) (total_count self) in
  let* fr_pct := share_pct (len fr) (total_count self) in
  let* bstats := duration_stats self (Some blocked) in
  let* fstats := duration_stats self (Some fr) in
  Ok {| total_blocked := len blocked; total_blocked_pct := blocked_pct;
        fr_blocked := len fr; fr_blocked_pct := fr_pct;
        blocked_stats := bstats; fr_blocked_stats := fstats |}.

(** The per-type lists that [ddl_type_breakdown] collects. *)
Record type_group : Type := {
  g_operations : list DDLOperation;
  g_blocked : list DDLOperation;
  g_fr_blocked : list DDLOperation
}.

(** [key in d] and an in-place update of [d[key]], on a dict kept in
    insertion order. *)
Fixpoint dict_has {V : Type} (key : string) (d : list (string * V)) : bool :=
  match d with
  | [] => false
  | (k, _) :: t => String.eqb k key || dict_has key t
  end.

Fixpoint dict_update {V : Type} (key : string) (f : V -> V)
    (d : list (string * V)) : list (string * V) :=
  match d with
  | [] => []
  | (k, v) :: t =>
      if String.eqb k key then (k, f v) :: t
      else (k, v) :: dict_update key f t
  end.

(** The body of the first loop of [ddl_type_breakdown]. *)
Definition breakdown_step (breakdown : list (string * type_group))
    (op : DDLOperation) : list (string * type_group) :=
  let breakdown :=
    if dict_has (ddl_type op) breakdown then breakdown
    else (breakdown ++ [(ddl_type op,
                         {| g_operations := []; g_blocked := [];
                            g_fr_blocked := [] |})])%list in
  let breakdown :=
    dict_update (ddl_type op)
      (fun g => {| g_operations := (g_operations g ++ [op])%list;
                   g_blocked := g_blocked g;
                   g_fr_blocked := g_fr_blocked g |}) breakdown in
  let breakdown :=
    if was_blocked op
    then dict_update (ddl_type op)
           (fun g => {| g_operations := g_operations g;
                        g_blocked := (g_blocked g ++ [op])%list;
                        g_fr_blocked := g_fr_blocked g |}) breakdown
    else breakdown in
  if blocked_by_flight_recorder op
  then dict_update (ddl_type op)
         (fun g => {| g_operations := g_operations g;
                      g_blocked := g_blocked g;
                      g_fr_blocked := (g_fr_blocked g ++ [op])%list |}) breakdown
  else breakdown.

Record type_breakdown : Type := {
  tb_count : Z;
  tb_blocked_count : Z;
  tb_blocked_pct : Q;
  tb_fr_blocked_count : Z;
  tb_fr_blocked_pct : Q;
  tb_duration_stats : duration_summary;
  tb_blocked_duration_stats : option duration_summary
}.

(** [(len(part) / len(whole) * 100) if whole else 0]. *)
Definition group_pct (part whole : list DDLOperation) : result Q :=
  match whole with
  | [] => Ok 0
  | _ :: _ =>
      let* q := truediv (inject_Z (len part)) (inject_Z (len whole)) in
      Ok (q * 100)
  end.

(** The body of the second loop of [ddl_type_breakdown]. *)
Definition breakdown_entry (self : DDLAnalyzer) (data : type_group)
    : result type_breakdown :=
  let* blocked_pct := group_pct (g_blocked data) (g_operations data) in
  let* fr_pct := group_pct (g_fr_blocked data) (g_operations data) in
  let* stats := duration_stats self (Some (g_operations data)) in
  let* blocked_duration :=
    match g_blocked data with
    | [] => Ok None
    | _ :: _ =>
        let* s := duration_stats self (Some (g_blocked data)) in Ok (Some s)
    end in
  Ok {| tb_count := len (g_operations data);
        tb_blocked_count := len (g_blocked data);
        tb_blocked_pct := blocked_pct;
        tb_fr_blocked_count := len (g_fr_blocked data);
        tb_fr_blocked_pct := fr_pct;
        tb_duration_stats := stats;
        tb_blocked_duration_stats := blocked_duration |}.

Fixpoint breakdown_entries (self : DDLAnalyzer)
    (breakdown : list (string * type_group))
    : result (list (string * type_breakdown)) :=
  match breakdown with
  | [] => Ok []
  | (ty, data) :: rest =>
      let* entry := breakdown_entry self data in
      let* entries := breakdown_entries self rest in
      Ok ((ty, entry) :: entries)
  end.

(** The result dict is kept in insertion order, as Python keeps it. *)
Definition ddl_type_breakdown (self : DDLAnalyzer)
    : result (list (string * type_breakdown)) :=
  breakdown_entries self (fold_left breakdown_step (operations self) []).

Record collision_report : Type := {
  cp_interval_seconds : Z;
  cp_collections_per_day : Z;
  cp_operations_per_hour : Z;
  cp_collision_probability_pct : Q;
  cp_expected_collisions_per_day : Q;
  cp_expected_collisions_per_hour : Q
}.

(** The defaults of the two keyword arguments are 180 and 100. *)
Definition collision_probability (self : DDLAnalyzer)
    (interval_seconds operations_per_hour : Z) : result collision_report :=
  let* fr_pct :=
    share_pct (len (List.filter blocked_by_flight_recorder (operations self)))
              (total_count self) in
  let* collections_per_day := floordiv 86400 interval_seconds in
  let* rate := truediv fr_pct 100 in
  let expected_collisions_per_day :=
    inject_Z collections_per_day * rate * inject_Z (operations_per_hour * 24) in
  let* per_hour := truediv expected_collisions_per_day 24 in
  Ok {| cp_interval_seconds := interval_seconds;
        cp_collections_per_day := collections_per_day;
        cp_operations_per_hour := operations_per_hour;
        cp_collision_probability_pct := fr_pct;
        cp_expected_collisions_per_day := expected_collisions_per_day;
        cp_expected_collisions_per_hour := per_hour |}.

(** The line feed of the f-string in [risk_assessment]. *)
Definition newline : string := String (ascii_of_nat 10) EmptyString.

Definition risk_assessment (self : DDLAnalyzer) (interval_seconds : Z)
    : result (string * string) :=
  let* fr_pct :=
    share_pct (len (List.filter blocked_by_flight_recorder (operations self)))
              (total_count self) in
  let fr := List.filter blocked_by_flight_recorder (operations self) in
  let* avg_delay := match fr with
                    | [] => Ok 0
                    | _ :: _ => mean (map duration_ms fr)
                    end in
  let '(risk, recommendation) :=
    if Qltb fr_pct 1 then
      ("LOW", "Safe for production use with high DDL workloads")
    else if Qltb fr_pct 3 then
      ("MODERATE", "Safe for typical workloads. Monitor if >50 DDL ops/hour")
    else if Qltb fr_pct 5 then
      ("MODERATE-HIGH",
       "Consider emergency mode (300s) during DDL-heavy periods")
    else
      ("HIGH",
       "Use emergency mode (300s) or schedule DDL during low-traffic windows")
  in
  if Qltb 100 avg_delay
  then Ok (risk ++ " (HIGH DELAY)",
           recommendation ++ newline ++ "Average delay "
             ++ format_fixed 1 avg_delay
             ++ "ms is concerning for latency-sensitive applications")
  else Ok (risk, recommendation).

(** ** benchmark2/lib/statistical_analysis.py *)

Record RunStats : Type := {
  tps : Q;
  tps_stddev : Q;
  latency_mean : Q;
  latency_p50 : Q;
  latency_p95 : Q;
  latency_p99 : Q;
  latency_max : Q;
  transactions : Z;
  duration : Q
}.

Record percentiles : Type := {
  pc_p50 : Q;
  pc_p95 : Q;
  pc_p99 : Q;
  pc_max : Q;
  pc_mean : Q;
  pc_stddev : Q
}.

Definition compute_percentiles (values : list Q) : result percentiles :=
  match values with
  | [] =>
      Ok {| pc_p50 := 0; pc_p95 := 0; pc_p99 := 0; pc_max := 0;
            pc_mean := 0; pc_stddev := 0 |}
  | _ :: _ =>
      let sorted_values := sorted values in
      let n := len sorted_values in
      let* mu := mean values in
      let* sd := if (1 <? n)%Z then stdev values else Ok 0 in
      let* p50 := getitem sorted_values (int_ (inject_Z n * 0.50)) in
      let* p95 := getitem sorted_values (int_ (inject_Z n * 0.95)) in
      let* p99 := getitem sorted_values (int_ (inject_Z n * 0.99)) in
      let* mx := getitem sorted_values (-1) in
      Ok {| pc_p50 := p50; pc_p95 := p95; pc_p99 := p99; pc_max := mx;
            pc_mean := mu; pc_stddev := sd |}
  end.

(** [math.sqrt(x)], which rejects negative arguments. *)
Definition py_sqrt (x : Q) : result Q :=
  if Qltb x 0 then Raise ValueError else Ok (math_sqrt x).

(** The [confidence] argument (default 0.95) is not read. *)
Definition compute_confidence_interval (values : list Q) (confidence : Q)
    : result (Q * Q * Q) :=
  if (len values <? 2)%Z
  then
    let* mean := match values with
                 | [] => Ok 0
                 | _ :: _ => getitem values 0
                 end in
    Ok (mean, mean, 0)
  else
    let n := len values in
    let* mean := mean values in
    let* sd := stdev values in
    let* root := py_sqrt (inject_Z n) in
    let* stderr := truediv sd root in
    let t_critical := if (30 <? n)%Z then 1.96 else 2.0 in
    let margin := t_critical * stderr in
    Ok (mean - margin, mean + margin, margin).

Record assessment : Type := {
  tps_status : string;
  p99_status : string;
  overall : string
}.

Definition assess_results (tps_impact_pct p99_impact_pct p99_impact_ms : Q)
    : assessment :=
  let tps_status :=
    if Qltb tps_impact_pct (-3) then "CRITICAL"
    else if Qltb tps_impact_pct (-1) then "WARNING"
    else "OK" in
  let p99_status :=
    if Qltb 15 p99_impact_pct && Qltb 5 p99_impact_ms then "CRITICAL"
    else if Qltb 5 p99_impact_pct && Qltb 2 p99_impact_ms then "WARNING"
    else "OK" in
  let overall :=
    if String.eqb tps_status "CRITICAL" || String.eqb p99_status "CRITICAL"
    then "FAIL"
    else if String.eqb tps_status "WARNING" || String.eqb p99_status "WARNING"
    then "WARNING"
    else "PASS" in
  {| tps_status := tps_status; p99_status := p99_status; overall := overall |}.

(** The loaded results of one workload; a missing key reads as [[]]. *)
Record workload_data : Type := {
  baseline_runs : list RunStats;
  enabled_runs : list RunStats;
  baseline_latencies : list Q;
  enabled_latencies : list Q
}.

(** [stats.get(metric, 0)] on the dict built by [compute_percentiles],
    [None] standing for the empty dict. *)
Definition stats_get (stats : option percentiles) (metric : string) : Q :=
  match stats with
  | None => 0
  | Some s =>
      if String.eqb metric "mean" then pc_mean s
      else if String.eqb metric "stddev" then pc_stddev s
      else if String.eqb metric "p50" then pc_p50 s
      else if String.eqb metric "p95" then pc_p95 s
      else if String.eqb metric "p99" then pc_p99 s
      else if String.eqb metric "max" then pc_max s
      else 0
  end.

Record latency_entry : Type := {
  le_baseline_ms : Q;
  le_enabled_ms : Q;
  le_impact_pct : Q;
  le_impact_ms : Q
}.

(** The body of the loop over the latency metrics. *)
Definition latency_impact_entry (baseline_val enabled_val : Q)
    : result latency_entry :=
  if Qltb 0 baseline_val
  then
    let* q := truediv (enabled_val - baseline_val) baseline_val in
    Ok {| le_baseline_ms := baseline_val; le_enabled_ms := enabled_val;
          le_impact_pct := q * 100;
          le_impact_ms := enabled_val - baseline_val |}
  else
    Ok {| le_baseline_ms := baseline_val; le_enabled_ms := enabled_val;
          le_impact_pct := 0; le_impact_ms := 0 |}.

Fixpoint latency_impact_loop
    (baseline_lat_stats enabled_lat_stats : option percentiles)
    (metrics : list string) (latency_impact : gmap string latency_entry)
    : result (gmap string latency_entry) :=
  match metrics with
  | [] => Ok latency_impact
  | metric :: rest =>
      let baseline_val := stats_get baseline_lat_stats metric in
      let enabled_val := stats_get enabled_lat_stats metric in
      let* entry := latency_impact_entry baseline_val enabled_val in
      latency_impact_loop baseline_lat_stats enabled_lat_stats rest
        (<[metric := entry]> latency_impact)
  end.

Record tps_summary : Type := {
  ts_mean : Q;
  ts_stddev : Q;
  ts_ci_low : Q;
  ts_ci_high : Q;
  ts_samples : Z
}.

Record workload_analysis : Type := {
  wa_tps_baseline : tps_summary;
  wa_tps_enabled : tps_summary;
  wa_tps_impact_pct : Q;
  wa_latency : gmap string latency_entry;
  wa_assessment : assessment
}.

(** The two shapes of dict that [analyze_workload] returns. *)
Inductive workload_report : Type :=
| InsufficientData
| Analysed (a : workload_analysis).

Definition analyze_workload (data : workload_data) : result workload_report :=
  match baseline_runs data, enabled_runs data with
  | [], _ | _, [] => Ok InsufficientData
  | _ :: _, _ :: _ =>
      let baseline_tps := map tps (baseline_runs data) in
      let enabled_tps := map tps (enabled_runs data) in
      let* baseline_tps_mean := mean baseline_tps in
      let* enabled_tps_mean := mean enabled_tps in
      let* q :=
        truediv (enabled_tps_mean - baseline_tps_mean) baseline_tps_mean in
      let tps_impact_pct := q * 100 in
      let* baseline_tps_ci := compute_confidence_interval baseline_tps 0.95 in
      let* enabled_tps_ci := compute_confidence_interval enabled_tps 0.95 in
      let* baseline_lat_stats :=
        match baseline_latencies data with
        | [] => Ok None
        | _ :: _ =>
            let* s := compute_percentiles (baseline_latencies data) in
            Ok (Some s)
        end in
      let* enabled_lat_stats :=
        match enabled_latencies data with
        | [] => Ok None
        | _ :: _ =>
            let* s := compute_percentiles (enabled_latencies data) in
            Ok (Some s)
        end in
      let* latency_impact :=
        latency_impact_loop baseline_lat_stats enabled_lat_stats
          ["mean"; "p50"; "p95"; "p99"; "max"] ∅ in
      let p99_pct := match latency_impact !! "p99" with
                     | Some e => le_impact_pct e
                     | None => 0
                     end in
      let p99_ms := match latency_impact !! "p99" with
                    | Some e => le_impact_ms e
                    | None => 0
                    end in
      let assessment := assess_results tps_impact_pct p99_pct p99_ms in
      let* baseline_sd :=
        if (1 <? len baseline_tps)%Z then stdev baseline_tps else Ok 0 in
      let* enabled_sd :=
        if (1 <? len enabled_tps)%Z then stdev enabled_tps else Ok 0 in
      Ok (Analysed
            {| wa_tps_baseline :=
                 {| ts_mean := baseline_tps_mean; ts_stddev := baseline_sd;
                    ts_ci_low := fst (fst baseline_tps_ci);
                    ts_ci_high := snd (fst baseline_tps_ci);
                    ts_samples := len baseline_tps |};
               wa_tps_enabled :=
                 {| ts_mean := enabled_tps_mean; ts_stddev := enabled_sd;
                    ts_ci_low := fst (fst enabled_tps_ci);
                    ts_ci_high := snd (fst enabled_tps_ci);
                    ts_samples := len enabled_tps |};
               wa_tps_impact_pct := tps_impact_pct;
               wa_latency := latency_impact;
               wa_assessment := assessment |})
  end.

(** ** Vocabulary of the specification

    The definitions below follow the words of the specification; the
    theorems relate the code above to them. *)

Inductive SeverityLevel : Set := NEGLIGIBLE | LOW | MODERATE | HIGH | SEVERE.

Definition severity_rank (s : SeverityLevel) : nat :=
  match s with
  | NEGLIGIBLE => 0 | LOW => 1 | MODERATE => 2 | HIGH => 3 | SEVERE => 4
  end.

(** The tier that one signal requires on its own. *)
Definition tier_required (impact : Q) : SeverityLevel :=
  if Qltb (Qabs impact) 2 then NEGLIGIBLE
  else if Qltb (Qabs impact) 5 then LOW
  else if Qltb (Qabs impact) 10 then MODERATE
  else if Qltb (Qabs impact) 20 then HIGH
  else SEVERE.

Definition worst_tier (a b : SeverityLevel) : SeverityLevel :=
  if (severity_rank a <=? severity_rank b)%nat then b else a.

Definition classifyOverhead (throughputImpactPct latencyP95ImpactPct : Q)
    : SeverityLevel :=
  worst_tier (tier_required throughputImpactPct)
             (tier_required latencyP95ImpactPct).

(** The text [assess_impact] prints for a tier. *)
Definition severity_label (s : SeverityLevel) : string :=
  match s with
  | NEGLIGIBLE => "✓ NEGLIGIBLE (<2% impact)"
  | LOW => "✓ LOW (<5% impact)"
  | MODERATE => "⚠ MODERATE (<10% impact)"
  | HIGH => "⚠ HIGH (<20% impact)"
  | SEVERE => "✗ SEVERE (>20% impact)"
  end.

(** Both signals are strictly inside the bound [b]. *)
Definition both_within (b t l : Q) : Prop := Qabs t < b /\ Qabs l < b.

(** The ordering [OK < WARNING < CRITICAL] of the regression statuses. *)
Definition status_rank (s : string) : nat :=
  if String.eqb s "CRITICAL" then 2
  else if String.eqb s "WARNING" then 1
  else 0.

(** The overall verdict that stands for a rank. *)
Definition verdict_of_rank (r : nat) : string :=
  match r with
  | 0%nat => "PASS"
  | 1%nat => "WARNING"
  | _ => "FAIL"
  end.

(** The base tiers of the blocking risk, by the share of operations
    that the recorder blocked: below 1, below 3, below 5 percent, and
    from 5 percent on. *)
Inductive RiskTier : Set :=
| RiskLow
| RiskModerate
| RiskModerateHigh
| RiskHigh.

Definition risk_tier_of (recorderBlockedPct : Q) : RiskTier :=
  if Qltb recorderBlockedPct 1 then RiskLow
  else if Qltb recorderBlockedPct 3 then RiskModerate
  else if Qltb recorderBlockedPct 5 then RiskModerateHigh
  else RiskHigh.

Definition risk_tier_name (t : RiskTier) : string :=
  match t with
  | RiskLow => "LOW"
  | RiskModerate => "MODERATE"
  | RiskModerateHigh => "MODERATE-HIGH"
  | RiskHigh => "HIGH"
  end.

Definition risk_tier_recommendation (t : RiskTier) : string :=
  match t with
  | RiskLow => "Safe for production use with high DDL workloads"
  | RiskModerate => "Safe for typical workloads. Monitor if >50 DDL ops/hour"
  | RiskModerateHigh =>
      "Consider emergency mode (300s) during DDL-heavy periods"
  | RiskHigh =>
      "Use emergency mode (300s) or schedule DDL during low-traffic windows"
  end.

(** The qualifier that a high average delay adds to the recommendation. *)
Definition high_delay_note (avgDelayMs : Q) : string :=
  newline ++ "Average delay " ++ format_fixed 1 avgDelayMs
    ++ "ms is concerning for latency-sensitive applications".

(** The average duration of the operations the recorder blocked, 0 when
    there is none. *)
Definition average_delay (ops : list DDLOperation) : result Q :=
  match List.filter blocked_by_flight_recorder ops with
  | [] => Ok 0
  | _ :: _ =>
      mean (map duration_ms (List.filter blocked_by_flight_recorder ops))
  end.

(** The share of operations the recorder blocked, in percent. *)
Definition measured_block_rate (ops : list DDLOperation) : result Q :=
  share_pct (len (List.filter blocked_by_flight_recorder ops)) (len ops).

(** Every counter that [compare_database_stats] reads is present in
    both snapshots of a run. *)
Definition has_counters (run : database_stats) : Prop :=
  forall key, In key database_stat_keys ->
    is_Some (start run !! key) /\ is_Some (end_ run !! key).

(** What the result of [compare_database_stats] holds for one counter. *)
Definition counter_reported (baseline test : database_stats)
    (metrics : gmap string stat_comparison) (key : string) : Prop :=
  exists bs be ts te entry,
    start baseline !! key = Some bs /\ end_ baseline !! key = Some be
    /\ start test !! key = Some ts /\ end_ test !! key = Some te
    /\ metrics !! key = Some entry
    /\ sc_baseline entry = (be - bs)%Z
    /\ sc_test entry = (te - ts)%Z
    /\ calculate_impact (inject_Z (be - bs)) (inject_Z (te - ts))
       = Ok (sc_impact_pct entry).

(** The all-zero summaries. *)
Definition zero_duration_summary : duration_summary :=
  {| ds_count := 0; ds_min := 0; ds_max := 0; ds_mean := 0; ds_median := 0;
     ds_p95 := 0; ds_p99 := 0; ds_stddev := 0 |}.

Definition zero_percentiles : percentiles :=
  {| pc_p50 := 0; pc_p95 := 0; pc_p99 := 0; pc_max := 0;
     pc_mean := 0; pc_stddev := 0 |}.

(** Every latency metric that [compare_latency] reads is present. *)
Definition has_latency_metrics (run : run_result) : Prop :=
  forall metric, In metric latency_metric_names ->
    is_Some (latency_ms run !! metric).

(** What the result of [compare_latency] holds for one metric. *)
Definition latency_reported (baseline test : run_result)
    (metrics : gmap string latency_comparison) (metric : string) : Prop :=
  exists b t entry,
    latency_ms baseline !! metric = Some b
    /\ latency_ms test !! metric = Some t
    /\ metrics !! metric = Some entry
    /\ lc_baseline_ms entry = b
    /\ lc_test_ms entry = t
    /\ calculate_impact b t = Ok (lc_impact_pct entry)
    /\ lc_impact_formatted entry = format_impact (lc_impact_pct entry).

(** Some counter is absent from one of the four snapshots. *)
Definition counter_missing (baseline test : database_stats) : Prop :=
  exists key,
    In key database_stat_keys
    /\ (start baseline !! key = None \/ end_ baseline !! key = None
        \/ start test !! key = None \/ end_ test !! key = None).

(** Some latency metric is absent from one of the two runs. *)
Definition latency_metric_missing (baseline test : run_result) : Prop :=
  exists metric,
    In metric latency_metric_names
    /\ (latency_ms baseline !! metric = None
        \/ latency_ms test !! metric = None).

(** The operations of one DDL type, in input order. *)
Definition has_type (ty : string) (op : DDLOperation) : bool :=
  String.eqb (ddl_type op) ty.

Definition ops_of_type (ty : string) (ops : list DDLOperation)
    : list DDLOperation :=
  List.filter (has_type ty) ops.

(** The DDL types that occur, each once, in order of first appearance. *)
Definition types_in_order (ops : list DDLOperation) : list string :=
  rev (nodup string_dec (rev (map ddl_type ops))).

(** The three lists that belong to one DDL type. *)
Definition group_of (ty : string) (ops : list DDLOperation) : type_group :=
  {| g_operations := ops_of_type ty ops;
     g_blocked := List.filter was_blocked (ops_of_type ty ops);
     g_fr_blocked :=
       List.filter blocked_by_flight_recorder (ops_of_type ty ops) |}.

(** The sum of one count over the entries of a breakdown. *)
Definition total_over (count : type_breakdown -> Z)
    (entries : list (string * type_breakdown)) : Z :=
  fold_right (fun e acc => (count (snd e) + acc)%Z) 0%Z entries.

(** The ordering [PASS < WARNING < FAIL] of the overall verdicts. *)
Definition verdict_rank (s : string) : nat :=
  if String.eqb s "FAIL" then 2
  else if String.eqb s "WARNING" then 1
  else 0.

(** ** Sample inputs *)

(** A snapshot in which every counter has the value [v]. *)
Definition snapshot (v : Z) : gmap string Z :=
  list_to_map (map (fun key => (key, v)) database_stat_keys).

(** A run whose counters were reset between the two snapshots: each goes
    from 10 down to 5. *)
Definition reset_run : database_stats :=
  {| start := snapshot 10; end_ := snapshot 5 |}.

(** A run whose counters grow from 10 to 30. *)
Definition steady_run : database_stats :=
  {| start := snapshot 10; end_ := snapshot 30 |}.

Definition sample_op (d : Q) (blocked : bool) (agent : option string)
    : DDLOperation :=
  {| operation_id := 0; ddl_type := "ALTER"; start_time := "";
     end_time := ""; duration_ms := d; was_blocked := blocked;
     blocked_by := agent; lock_wait_ms := None |}.

(** Fifty operations, one of them blocked by the recorder: a measured
    block rate of 2 percent. *)
Definition one_in_fifty : list DDLOperation :=
  sample_op 250 true (Some "pg_Flight_Recorder snapshot")
  :: repeat (sample_op 10 false None) 49.

(** Two unblocked operations of 0 ms and 1 ms. *)
Definition two_durations : list DDLOperation :=
  [sample_op 0 false None; sample_op 1 false None].

(** A results file with 1000 TPS, latencies of 2 ms to 9 ms and the
    counters of [steady_run]. *)
Definition sample_run : run_result :=
  {| throughput := {["tps" := 1000]};
     latency_ms :=
       list_to_map [("mean", 2); ("p50", 2); ("p95", 5); ("p99", 7);
                    ("max", 9)];
     run_database_stats := steady_run |}.

(** Four operations of two DDL types. *)
Definition mixed_operations : list DDLOperation :=
  [ {| operation_id := 1; ddl_type := "VACUUM"; start_time := "";
       end_time := ""; duration_ms := 5; was_blocked := false;
       blocked_by := None; lock_wait_ms := None |};
    {| operation_id := 2; ddl_type := "ALTER"; start_time := "";
       end_time := ""; duration_ms := 120; was_blocked := true;
       blocked_by := Some "Flight_Recorder collector";
       lock_wait_ms := Some 110 |};
    {| operation_id := 3; ddl_type := "VACUUM"; start_time := "";
       end_time := ""; duration_ms := 7; was_blocked := true;
       blocked_by := Some "autovacuum"; lock_wait_ms := Some 2 |};
    {| operation_id := 4; ddl_type := "ALTER"; start_time := "";
       end_time := ""; duration_ms := 2; was_blocked := false;
       blocked_by := None; lock_wait_ms := None |} ].

(** A workload with one run of 100 TPS in each mode, enabled latencies
    only. *)
Definition workload_without_baseline_log : workload_data :=
  {| baseline_runs :=
       [ {| tps := 100; tps_stddev := 0; latency_mean := 1;
            latency_p50 := 1; latency_p95 := 1; latency_p99 := 1;
            latency_max := 1; transactions := 10; duration := 0 |} ];
     enabled_runs :=
       [ {| tps := 100; tps_stddev := 0; latency_mean := 1;
            latency_p50 := 1; latency_p95 := 1; latency_p99 := 1;
            latency_max := 1; transactions := 10; duration := 0 |} ];
     baseline_latencies := [];
     enabled_latencies := [10; 20; 400] |}.

Definition run_with_tps (v : Q) : RunStats :=
  {| tps := v; tps_stddev := 0; latency_mean := 1; latency_p50 := 1;
     latency_p95 := 1; latency_p99 := 1; latency_max := 1;
     transactions := 0; duration := 0 |}.

(** A workload whose single baseline run processed no transaction
    ([tps = 0.000000] in the pgbench summary). *)
Definition idle_baseline_workload : workload_data :=
  {| baseline_runs := [run_with_tps 0];
     enabled_runs := [run_with_tps 5];
     baseline_latencies := [];
     enabled_latencies := [] |}.

End Engine.

(** ** Properties of the runtime *)

Lemma Qltb_true (x y : Q) : Qltb x y = true <-> x < y.
Proof.
  unfold Qltb. destruct (Qlt_le_dec x y) as [H | H]; split; intros H';
    try reflexivity; try assumption; try discriminate.
  exfalso. apply (Qlt_not_le _ _ H'). exact H.
Qed.

Lemma Qltb_false (x y : Q) : Qltb x y = false <-> y <= x.
Proof.
  unfold Qltb. destruct (Qlt_le_dec x y) as [H | H]; split; intros H';
    try reflexivity; try assumption; try discriminate.
  exfalso. apply (Qlt_not_le _ _ H). exact H'.
Qed.

Lemma Qeqb_true (x y : Q) : Qeqb x y = true <-> x == y.
Proof.
  unfold Qeqb. destruct (Qeq_dec x y) as [H | H]; split; intros H';
    try reflexivity; try assumption; try discriminate.
  contradiction.
Qed.

Lemma Qeqb_false (x y : Q) : Qeqb x y = false <-> ~ x == y.
Proof.
  unfold Qeqb. destruct (Qeq_dec x y) as [H | H]; split; intros H';
    try reflexivity; try assumption; try discriminate.
  contradiction.
Qed.

(** Linear integer arithmetic with division and remainder by constants. *)
Ltac zlia := Zify.zify; Z.to_euclidean_division_equations; lia.

(** Case analysis on every float comparison of the goal. *)
Ltac case_Qltb :=
  repeat match goal with
         | |- context [Qltb ?x ?y] =>
             let H := fresh "Hcmp" in
             destruct (Qltb x y) eqn:H;
             [apply Qltb_true in H | apply Qltb_false in H]
         end.

Lemma len_nonneg {A : Type} (l : list A) : (0 <= len l)%Z.
Proof. unfold len. lia. Qed.

Lemma len_cons {A : Type} (x : A) (l : list A) : len (x :: l) = (len l + 1)%Z.
Proof. unfold len. cbn [length]. lia. Qed.

Lemma getitem_nth {A : Type} (l : list A) (i : Z) (d : A) :
  (0 <= i < len l)%Z -> getitem l i = Ok (nth (Z.to_nat i) l d).
Proof.
  intros Hi. unfold getitem, len in *.
  destruct (Z.ltb_spec i 0) as [Hneg | _]; [lia |].
  destruct (Z.ltb_spec i 0) as [Hneg | _]; [lia |].
  destruct (nth_error l (Z.to_nat i)) as [x |] eqn:Hx.
  - f_equal. symmetry. apply nth_error_nth. exact Hx.
  - apply nth_error_None in Hx. lia.
Qed.

Lemma getitem_last {A : Type} (l : list A) (d : A) :
  l <> [] -> getitem l (-1) = Ok (nth (length l - 1) l d).
Proof.
  intros Hl. unfold getitem, len.
  assert (Hlen : (0 < length l)%nat) by (destruct l; [congruence | cbn; lia]).
  cbn [Z.ltb Z.compare].
  destruct (Z.ltb_spec (-1 + Z.of_nat (length l)) 0) as [Hneg | _]; [lia |].
  replace (Z.to_nat (-1 + Z.of_nat (length l))) with (length l - 1)%nat by lia.
  destruct (nth_error l (length l - 1)) as [x |] eqn:Hx.
  - f_equal. symmetry. apply nth_error_nth. exact Hx.
  - apply nth_error_None in Hx. lia.
Qed.

(** *** [sorted] *)

Lemma insert_sorted_length (x : Q) (l : list Q) :
  length (insert_sorted x l) = S (length l).
Proof.
  induction l as [| y t IH]; cbn; [reflexivity |].
  destruct (Qltb y x); cbn; [rewrite IH |]; reflexivity.
Qed.

Lemma sorted_length (l : list Q) : length (sorted l) = length l.
Proof.
  induction l as [| x t IH]; cbn; [reflexivity |].
  rewrite insert_sorted_length, IH. reflexivity.
Qed.

Lemma sorted_len (l : list Q) : len (sorted l) = len l.
Proof. unfold len. rewrite sorted_length. reflexivity. Qed.

Lemma insert_sorted_In (x y : Q) (l : list Q) :
  In y (insert_sorted x l) <-> y = x \/ In y l.
Proof.
  induction l as [| z t IH]; cbn.
  - intuition congruence.
  - destruct (Qltb z x); cbn; [rewrite IH |]; intuition congruence.
Qed.

Lemma sorted_In (y : Q) (l : list Q) : In y (sorted l) <-> In y l.
Proof.
  induction l as [| x t IH]; cbn; [reflexivity |].
  rewrite insert_sorted_In, IH. intuition congruence.
Qed.

Lemma insert_sorted_ascending (x : Q) (l : list Q) :
  StronglySorted Qle l -> StronglySorted Qle (insert_sorted x l).
Proof.
  induction l as [| y t IH]; intros Hs; cbn.
  - constructor; constructor.
  - apply StronglySorted_inv in Hs as [Ht Hy].
    destruct (Qltb y x) eqn:Hcmp.
    + apply Qltb_true in Hcmp. constructor; [apply IH; exact Ht |].
      apply List.Forall_forall. intros z Hz.
      apply insert_sorted_In in Hz as [-> | Hz].
      * apply Qlt_le_weak. exact Hcmp.
      * rewrite List.Forall_forall in Hy. apply Hy. exact Hz.
    + apply Qltb_false in Hcmp. constructor; [constructor; assumption |].
      constructor; [exact Hcmp |].
      eapply List.Forall_impl; [| exact Hy]. intros z Hz. cbn in Hz.
      eapply Qle_trans; eassumption.
Qed.

Lemma sorted_ascending (l : list Q) : StronglySorted Qle (sorted l).
Proof.
  induction l as [| x t IH]; cbn; [constructor |].
  apply insert_sorted_ascending. exact IH.
Qed.

(** Sorting is stable, so it leaves an ascending list as it is. *)
Lemma sorted_fixpoint (l : list Q) : StronglySorted Qle l -> sorted l = l.
Proof.
  induction l as [| x t IH]; intros Hs; cbn; [reflexivity |].
  apply StronglySorted_inv in Hs as [Ht Hx]. rewrite (IH Ht).
  destruct t as [| y t']; cbn; [reflexivity |].
  apply Forall_inv in Hx.
  destruct (Qltb y x) eqn:Hcmp; [| reflexivity].
  apply Qltb_true in Hcmp. exfalso. apply (Qlt_not_le _ _ Hcmp). exact Hx.
Qed.

Lemma sorted_idempotent (l : list Q) : sorted (sorted l) = sorted l.
Proof. apply sorted_fixpoint, sorted_ascending. Qed.

Lemma ascending_nth (l : list Q) :
  StronglySorted Qle l ->
  forall i j : nat, (i <= j < length l)%nat -> nth i l 0 <= nth j l 0.
Proof.
  induction 1 as [| x t Ht IH Hx]; intros i j Hij; cbn in Hij; [lia |].
  destruct i as [| i], j as [| j]; cbn [nth]; try lia.
  - apply Qle_refl.
  - rewrite List.Forall_forall in Hx. apply Hx. apply nth_In. lia.
  - apply IH. lia.
Qed.

Lemma sorted_nth_le (l : list Q) (i j : nat) :
  (i <= j < length l)%nat -> nth i (sorted l) 0 <= nth j (sorted l) 0.
Proof.
  intros Hij. apply ascending_nth; [apply sorted_ascending |].
  rewrite sorted_length. exact Hij.
Qed.

Lemma sorted_nth_In (l : list Q) (i : nat) :
  (i < length l)%nat -> In (nth i (sorted l) 0) l.
Proof.
  intros Hi. apply sorted_In. apply nth_In. rewrite sorted_length. exact Hi.
Qed.

(** *** [min] and [max] *)

Lemma fold_min_spec (t : list Q) :
  forall x : Q,
    let m := fold_left (fun m y => if Qltb y m then y else m) t x in
    In m (x :: t) /\ forall y, In y (x :: t) -> m <= y.
Proof.
  induction t as [| z t IH]; intros x; cbn.
  - split; [left; reflexivity |]. intros y [<- | []]. apply Qle_refl.
  - specialize (IH (if Qltb z x then z else x)). cbn in IH.
    destruct IH as [Hin Hle]. destruct (Qltb z x) eqn:Hcmp.
    + apply Qltb_true in Hcmp. split; [tauto |].
      intros y [<- | [<- | Hy]].
      * eapply Qle_trans; [apply Hle; left; reflexivity |].
        apply Qlt_le_weak. exact Hcmp.
      * apply Hle. left. reflexivity.
      * apply Hle. right. exact Hy.
    + apply Qltb_false in Hcmp. split; [tauto |].
      intros y [<- | [<- | Hy]].
      * apply Hle. left. reflexivity.
      * eapply Qle_trans; [apply Hle; left; reflexivity | exact Hcmp].
      * apply Hle. right. exact Hy.
Qed.

Lemma fold_max_spec (t : list Q) :
  forall x : Q,
    let m := fold_left (fun m y => if Qltb m y then y else m) t x in
    In m (x :: t) /\ forall y, In y (x :: t) -> y <= m.
Proof.
  induction t as [| z t IH]; intros x; cbn.
  - split; [left; reflexivity |]. intros y [<- | []]. apply Qle_refl.
  - specialize (IH (if Qltb x z then z else x)). cbn in IH.
    destruct IH as [Hin Hle]. destruct (Qltb x z) eqn:Hcmp.
    + apply Qltb_true in Hcmp. split; [tauto |].
      intros y [<- | [<- | Hy]].
      * eapply Qle_trans; [| apply Hle; left; reflexivity].
        apply Qlt_le_weak. exact Hcmp.
      * apply Hle. left. reflexivity.
      * apply Hle. right. exact Hy.
    + apply Qltb_false in Hcmp. split; [tauto |].
      intros y [<- | [<- | Hy]].
      * apply Hle. left. reflexivity.
      * eapply Qle_trans; [exact Hcmp | apply Hle; left; reflexivity].
      * apply Hle. right. exact Hy.
Qed.

Lemma py_min_spec (l : list Q) :
  l <> [] ->
  exists m, py_min l = Ok m /\ In m l /\ forall y, In y l -> m <= y.
Proof.
  destruct l as [| x t]; [congruence |]. intros _.
  eexists. split; [reflexivity |]. apply fold_min_spec.
Qed.

Lemma py_max_spec (l : list Q) :
  l <> [] ->
  exists m, py_max l = Ok m /\ In m l /\ forall y, In y l -> y <= m.
Proof.
  destruct l as [| x t]; [congruence |]. intros _.
  eexists. split; [reflexivity |]. apply fold_max_spec.
Qed.

(** *** [statistics.mean], [median], [stdev] *)

Lemma mean_returns (l : list Q) :
  l <> [] -> mean l = Ok (sum l / inject_Z (len l)).
Proof. destruct l; [congruence | reflexivity]. Qed.

Lemma stdev_returns (math_sqrt : Q -> Q) (l : list Q) :
  (2 <= len l)%Z ->
  stdev math_sqrt l = Ok (math_sqrt (sum_sq_dev l / inject_Z (len l - 1))).
Proof.
  intros Hl. unfold stdev.
  destruct (Z.ltb_spec (len l) 2) as [Hlt | _]; [lia | reflexivity].
Qed.

Lemma len_pos (l : list Q) : l <> [] -> (1 <= len l)%Z.
Proof.
  destruct l; [congruence |]. intros _. rewrite len_cons.
  pose proof (len_nonneg l). lia.
Qed.

(** The median lies between the two middle elements of the sorted data. *)
Lemma median_between (l : list Q) :
  l <> [] ->
  exists md,
    median l = Ok md
    /\ nth (Z.to_nat ((len l - 1) / 2)) (sorted l) 0 <= md
    /\ md <= nth (Z.to_nat (len l / 2)) (sorted l) 0.
Proof.
  intros Hl. apply len_pos in Hl. unfold median. cbv zeta. rewrite sorted_len.
  assert (Hlen : len l = Z.of_nat (length l)) by reflexivity.
  destruct (Z.eqb_spec (len l) 0) as [H0 | _]; [lia |].
  destruct (Z.eqb_spec (len l mod 2) 1) as [Hodd | Heven].
  - eexists. split; [reflexivity |]. split; [| apply Qle_refl].
    apply sorted_nth_le. zlia.
  - eexists. split; [reflexivity |].
    replace (Z.to_nat ((len l - 1) / 2)) with (Z.to_nat (len l / 2 - 1)) by zlia.
    assert (Hab : nth (Z.to_nat (len l / 2 - 1)) (sorted l) 0
                  <= nth (Z.to_nat (len l / 2)) (sorted l) 0)
      by (apply sorted_nth_le; zlia).
    unfold Qdiv. change (/ 2) with (1 # 2). split; lra.
Qed.

(** *** [statistics.quantiles] with 100 bins *)

Lemma nth_map_in {A B : Type} (f : A -> B) (l : list A) (d : B) (d' : A) :
  forall n : nat, (n < length l)%nat -> nth n (map f l) d = f (nth n l d').
Proof.
  induction l as [| x t IH]; intros [| n] Hn; cbn in *; try lia.
  - reflexivity.
  - apply IH. lia.
Qed.

Lemma range_length (a b : Z) : length (range a b) = Z.to_nat (b - a).
Proof. unfold range. rewrite length_map, length_seq. reflexivity. Qed.

Lemma range_nth (a b k : Z) :
  (a <= k < b)%Z -> nth (Z.to_nat (k - a)) (range a b) 0%Z = k.
Proof.
  intros Hk. unfold range.
  rewrite nth_map_in with (d' := 0%nat) by (rewrite length_seq; lia).
  rewrite seq_nth by lia. lia.
Qed.

Lemma int_of_int (k : Z) : int_ (inject_Z k) = k.
Proof. unfold int_. cbn. apply Z.quot_1_r. Qed.

(** [quantiles(data, n=100)[k - 1]] is the [k]-th cut point. *)
Lemma quantiles_getitem (l : list Q) (k : Z) :
  (2 <= len l)%Z -> (1 <= k <= 99)%Z ->
  (let* qs := quantiles l 100 in getitem qs (k - 1))
  = Ok (quantile_point (sorted l) (len l) 100 k).
Proof.
  intros Hl Hk. unfold quantiles. cbv zeta. rewrite sorted_len.
  change (100 <? 1)%Z with false. cbv iota.
  destruct (Z.ltb_spec (len l) 2) as [Hlt | _]; [lia |]. cbn [bind].
  rewrite getitem_nth with (d := 0).
  - rewrite nth_map_in with (d' := 0%Z) by (rewrite range_length; lia).
    rewrite range_nth by lia. reflexivity.
  - unfold len. rewrite length_map, range_length. lia.
Qed.


Lemma percentile_many (l : list Q) (k : Z) :
  (2 <= len l)%Z -> (1 <= k <= 99)%Z ->
  percentile l (inject_Z k) = Ok (quantile_point (sorted l) (len l) 100 k).
Proof.
  intros Hl Hk. unfold percentile.
  destruct l as [| x t]; [unfold len in Hl; cbn in Hl; lia |].
  destruct (Z.ltb_spec 1 (len (x :: t))) as [_ | Hle]; [| lia].
  rewrite int_of_int.
  rewrite quantiles_getitem; [| rewrite sorted_len; exact Hl | exact Hk].
  rewrite sorted_idempotent, sorted_len. reflexivity.
Qed.

(** The statistics that [duration_stats] reads from non-empty
    durations: all are returned, and the median lies between the
    smallest and the largest duration. *)
Lemma duration_order_statistics (d : list Q) :
  d <> [] ->
  exists mn mx md p95 p99,
    py_min d = Ok mn /\ py_max d = Ok mx /\ median d = Ok md
    /\ percentile d 95 = Ok p95 /\ percentile d 99 = Ok p99
    /\ mn <= md /\ md <= mx.
Proof.
  intros Hd.
  destruct (py_min_spec d Hd) as [mn [Hmn [_ Hmn_le]]].
  destruct (py_max_spec d Hd) as [mx [Hmx [_ Hmx_ge]]].
  destruct (median_between d Hd) as [md [Hmd [Hlo Hhi]]].
  pose proof (len_pos d Hd) as Hpos.
  assert (Hlen : len d = Z.of_nat (length d)) by reflexivity.
  assert (Hmin_md : mn <= md).
  { eapply Qle_trans; [| exact Hlo]. apply Hmn_le, sorted_nth_In. zlia. }
  assert (Hmd_max : md <= mx).
  { eapply Qle_trans; [exact Hhi |]. apply Hmx_ge, sorted_nth_In. zlia. }
  destruct (Z_le_gt_dec 2 (len d)) as [Hmany | Hone].
  - pose proof (percentile_many d 95 Hmany ltac:(lia)) as H95.
    pose proof (percentile_many d 99 Hmany ltac:(lia)) as H99.
    change (inject_Z 95) with 95 in H95. change (inject_Z 99) with 99 in H99.
    exists mn, mx, md; do 2 eexists.
    split; [exact Hmn |]. split; [exact Hmx |]. split; [exact Hmd |].
    split; [exact H95 |]. split; [exact H99 |].
    split; [exact Hmin_md | exact Hmd_max].
  - destruct d as [| x [| y t]]; [congruence | | rewrite !len_cons in Hone;
      pose proof (len_nonneg t); lia].
    exists mn, mx, md, x, x.
    split; [exact Hmn |]. split; [exact Hmx |]. split; [exact Hmd |].
    split; [reflexivity |]. split; [reflexivity |].
    split; [exact Hmin_md | exact Hmd_max].
Qed.

(** *** Direct indexing into the sorted samples *)

Lemma int_scaled (n a : Z) (b : positive) :
  (0 <= n)%Z -> (0 <= a)%Z ->
  int_ (inject_Z n * (a # b)) = (n * a / Z.pos b)%Z.
Proof.
  intros Hn Ha. unfold int_. cbn [Qmult Qnum Qden inject_Z].
  rewrite Pos.mul_1_l. apply Z.quot_div_nonneg; lia.
Qed.


(** ** compare.py: severity of the overhead *)

(** C4. [assess_impact] is the worst-of-two classification over the
    nested thresholds 2, 5, 10 and 20 on the absolute values: a tier is
    reported exactly when both signals are inside its bound and not both
    inside the bound below, and the four documented examples evaluate to
    NEGLIGIBLE, LOW, HIGH and SEVERE. *)
Theorem assess_impact_worst_of_two :
  (forall t l : Q,
      assess_impact t l = severity_label (classifyOverhead t l)
      /\ (assess_impact t l = severity_label NEGLIGIBLE <-> both_within 2 t l)
      /\ (assess_impact t l = severity_label LOW <->
          ~ both_within 2 t l /\ both_within 5 t l)
      /\ (assess_impact t l = severity_label MODERATE <->
          ~ both_within 5 t l /\ both_within 10 t l)
      /\ (assess_impact t l = severity_label HIGH <->
          ~ both_within 10 t l /\ both_within 20 t l)
      /\ (assess_impact t l = severity_label SEVERE <-> ~ both_within 20 t l))
  /\ assess_impact 1.0 1.0 = severity_label NEGLIGIBLE
  /\ assess_impact 3 3 = severity_label LOW
  /\ assess_impact 15 15 = severity_label HIGH
  /\ assess_impact 25 1 = severity_label SEVERE.
Proof.
  split; [| repeat split; reflexivity].
  intros t l.
  unfold assess_impact, classifyOverhead, tier_required, both_within.
  case_Qltb; cbn -[Qabs Qlt]; repeat split;
    try reflexivity; try discriminate; try tauto; try lra;
    intros; exfalso; lra.
Qed.

(** ** statistical_analysis.py: regression statuses *)

(** C5. [assess_results] reports the TPS status CRITICAL below -3,
    WARNING from -3 up to (excluding) -1 and OK otherwise; the p99
    status needs both the relative and the absolute threshold to be
    exceeded (15 percent and 5 ms for CRITICAL, 5 percent and 2 ms for
    WARNING); the overall verdict is the worse of the two statuses, and
    two CRITICAL statuses give FAIL. *)
Theorem assess_results_thresholds :
  (forall tps_pct p99_pct p99_ms : Q,
      let r := assess_results tps_pct p99_pct p99_ms in
      (tps_status r = "CRITICAL" <-> tps_pct < -3)
      /\ (tps_status r = "WARNING" <-> -3 <= tps_pct /\ tps_pct < -1)
      /\ (tps_status r = "OK" <-> -1 <= tps_pct)
      /\ (p99_status r = "CRITICAL" <-> 15 < p99_pct /\ 5 < p99_ms)
      /\ (p99_status r = "WARNING" <->
          ~ (15 < p99_pct /\ 5 < p99_ms) /\ 5 < p99_pct /\ 2 < p99_ms)
      /\ (p99_status r = "OK" <-> ~ (5 < p99_pct /\ 2 < p99_ms))
      /\ overall r =
         verdict_of_rank (Nat.max (status_rank (tps_status r))
                                  (status_rank (p99_status r))))
  /\ assess_results (-4) 20 10
     = {| tps_status := "CRITICAL"; p99_status := "CRITICAL"; overall := "FAIL" |}
  /\ p99_status (assess_results (-0.5) 20 1) = "OK".
Proof.
  split; [| split; reflexivity].
  intros tps_pct p99_pct p99_ms r. subst r. unfold assess_results.
  case_Qltb; cbn -[Qlt Qle]; repeat split;
    try reflexivity; try discriminate; try tauto; try lra;
    intros; exfalso; lra.
Qed.

(** ** compare.py: percentage impact and counter deltas *)

Lemma calculate_impact_zero_baseline (baseline test : Q) :
  baseline == 0 -> calculate_impact baseline test = Ok 0.0.
Proof.
  intros H. unfold calculate_impact.
  apply Qeqb_true in H. rewrite H. reflexivity.
Qed.

Lemma calculate_impact_nonzero_baseline (baseline test : Q) :
  ~ baseline == 0 ->
  calculate_impact baseline test = Ok ((test - baseline) / baseline * 100.0).
Proof.
  intros H. unfold calculate_impact, truediv.
  apply Qeqb_false in H. rewrite H. reflexivity.
Qed.

Lemma calculate_impact_returns (baseline test : Q) :
  exists v, calculate_impact baseline test = Ok v.
Proof.
  destruct (Qeq_dec baseline 0) as [H | H].
  - eexists. apply calculate_impact_zero_baseline. exact H.
  - eexists. apply calculate_impact_nonzero_baseline. exact H.
Qed.

Lemma delta_present (s e : gmap string Z) (key : string) (vs ve : Z) :
  s !! key = Some vs -> e !! key = Some ve -> delta s e key = Ok (ve - vs)%Z.
Proof.
  intros Hs He. unfold delta, dict_getitem. rewrite He. cbn. rewrite Hs.
  reflexivity.
Qed.

Lemma compare_database_stats_loop_spec
    (format_fixed : nat -> Q -> string) (baseline test : database_stats) :
  forall (keys : list string) (metrics : gmap string stat_comparison),
    NoDup keys ->
    (forall key, In key keys ->
       (is_Some (start baseline !! key) /\ is_Some (end_ baseline !! key))
       /\ is_Some (start test !! key) /\ is_Some (end_ test !! key)) ->
    exists m,
      compare_database_stats_loop format_fixed baseline test keys metrics = Ok m
      /\ (forall key, In key keys -> counter_reported baseline test m key)
      /\ (forall key, ~ In key keys -> m !! key = metrics !! key).
Proof.
  induction keys as [| key rest IH]; intros metrics Hnd Hpresent.
  - exists metrics. split; [reflexivity |]. split.
    + intros key [].
    + intros key _. reflexivity.
  - apply NoDup_cons in Hnd as [Hfresh Hnd].
    destruct (Hpresent key (or_introl eq_refl))
      as [[[bs Hbs] [be Hbe]] [[ts Hts] [te Hte]]].
    destruct (calculate_impact_returns (inject_Z (be - bs)) (inject_Z (te - ts)))
      as [v Hv].
    cbn [compare_database_stats_loop].
    rewrite (delta_present _ _ _ _ _ Hbs Hbe). cbn [bind].
    rewrite (delta_present _ _ _ _ _ Hts Hte). cbn [bind].
    rewrite Hv. cbn [bind].
    edestruct IH as [m [Hm [Hin Hout]]]; [exact Hnd | |].
    { intros k Hk. apply Hpresent. right. exact Hk. }
    exists m. split; [exact Hm |]. split.
    + intros k [<- | Hk]; [| apply Hin; exact Hk].
      exists bs, be, ts, te. eexists. repeat split; try eassumption.
      * rewrite Hout; [apply lookup_insert_eq |].
        intros Hk. apply Hfresh. apply list_elem_of_In. exact Hk.
      * reflexivity.
      * reflexivity.
      * exact Hv.
    + intros k Hk. rewrite Hout.
      * apply lookup_insert_ne. intros ->. apply Hk. left. reflexivity.
      * intros Hk'. apply Hk. right. exact Hk'.
Qed.

Lemma database_stat_keys_NoDup : NoDup database_stat_keys.
Proof. apply (bool_decide_unpack _). vm_compute. exact I. Qed.

(** C1 (amended). When every counter is present in the four snapshots,
    [compare_database_stats] returns a result, and for each counter it
    reports [end[key] - start[key]] of either run unchanged, negative or
    not, together with the impact that [calculate_impact] computes from
    the two deltas. *)
Theorem compare_database_stats_reports_raw_deltas (format_fixed : nat -> Q -> string)
    (baseline test : database_stats) :
  has_counters baseline -> has_counters test ->
  exists metrics,
    compare_database_stats format_fixed baseline test = Ok metrics
    /\ forall key, In key database_stat_keys ->
         counter_reported baseline test metrics key.
Proof.
  intros Hb Ht.
  destruct (compare_database_stats_loop_spec format_fixed baseline test
              database_stat_keys ∅) as [m [Hm [Hin _]]].
  - apply database_stat_keys_NoDup.
  - intros key Hkey. split; [apply Hb | apply Ht]; exact Hkey.
  - exists m. split; [exact Hm | exact Hin].
Qed.

(** ** statistical_analysis.py: the unguarded TPS division *)

(** C2. The scalar comparison and the latency loop give an impact of 0
    for a zero baseline, but the TPS path of [analyze_workload] divides
    by the baseline mean without a guard: on a workload whose baseline
    run reports 0 TPS it raises [ZeroDivisionError]. *)
Theorem analyze_workload_zero_baseline_tps_raises (math_sqrt : Q -> Q) :
  (forall test : Q, calculate_impact 0 test = Ok 0.0)
  /\ (forall enabled : Q,
        exists entry, latency_impact_entry 0 enabled = Ok entry
                      /\ le_impact_pct entry = 0)
  /\ analyze_workload math_sqrt idle_baseline_workload = Raise ZeroDivisionError.
Proof.
  split; [| split].
  - intros test. apply calculate_impact_zero_baseline. reflexivity.
  - intros enabled. eexists. split; reflexivity.
  - reflexivity.
Qed.

(** ** Summary statistics *)

Lemma guarded_stdev_returns (math_sqrt : Q -> Q) (l : list Q) :
  exists sd, (if (1 <? len l)%Z then stdev math_sqrt l else Ok 0) = Ok sd.
Proof.
  destruct (Z.ltb_spec 1 (len l)) as [Hl | Hl].
  - eexists. apply stdev_returns. lia.
  - eexists. reflexivity.
Qed.

Lemma map_nonempty {A B : Type} (f : A -> B) (l : list A) :
  l <> [] -> map f l <> [].
Proof. destruct l; [congruence | discriminate]. Qed.

Lemma len_map {A B : Type} (f : A -> B) (l : list A) : len (map f l) = len l.
Proof. unfold len. rewrite length_map. reflexivity. Qed.

(** [duration_stats] on an explicit, non-empty list of operations. *)
Lemma duration_stats_nonempty
    (math_sqrt : Q -> Q) (self : DDLAnalyzer) (ops : list DDLOperation) :
  ops <> [] ->
  exists s,
    duration_stats math_sqrt self (Some ops) = Ok s
    /\ ds_count s = len ops
    /\ py_min (map duration_ms ops) = Ok (ds_min s)
    /\ py_max (map duration_ms ops) = Ok (ds_max s)
    /\ mean (map duration_ms ops) = Ok (ds_mean s)
    /\ median (map duration_ms ops) = Ok (ds_median s)
    /\ percentile (map duration_ms ops) 95 = Ok (ds_p95 s)
    /\ percentile (map duration_ms ops) 99 = Ok (ds_p99 s).
Proof.
  intros Hops.
  assert (Hunfold : duration_stats math_sqrt self (Some ops) =
    let durations := map duration_ms ops in
    let* mn := py_min durations in
    let* mx := py_max durations in
    let* mu := mean durations in
    let* md := median durations in
    let* p95 := percentile durations 95 in
    let* p99 := percentile durations 99 in
    let* sd := if (1 <? len durations)%Z then stdev math_sqrt durations else Ok 0 in
    Ok {| ds_count := len durations; ds_min := mn; ds_max := mx;
          ds_mean := mu; ds_median := md; ds_p95 := p95; ds_p99 := p99;
          ds_stddev := sd |})
    by (destruct ops; [congruence | reflexivity]).
  rewrite Hunfold. cbv zeta.
  pose proof (map_nonempty duration_ms ops Hops) as Hd.
  destruct (duration_order_statistics _ Hd)
    as (mn & mx & md & p95 & p99 & Hmn & Hmx & Hmd & H95 & H99 & _).
  destruct (guarded_stdev_returns math_sqrt (map duration_ms ops)) as [sd Hsd].
  rewrite Hmn, Hmx, (mean_returns _ Hd), Hmd, H95, H99, Hsd. cbn [bind].
  eexists. split; [reflexivity |]. cbn.
  rewrite len_map. repeat split.
Qed.

Lemma duration_stats_returns (math_sqrt : Q -> Q) (self : DDLAnalyzer)
    (operations_arg : option (list DDLOperation)) :
  exists s, duration_stats math_sqrt self operations_arg = Ok s.
Proof.
  assert (Hsome : forall ops, exists s, duration_stats math_sqrt self (Some ops) = Ok s).
  { intros [| o t].
    - eexists. reflexivity.
    - destruct (duration_stats_nonempty math_sqrt self (o :: t)) as [s [Hs _]];
        [discriminate | exists s; exact Hs]. }
  destruct operations_arg as [ops |]; [apply Hsome |].
  destruct (Hsome (operations self)) as [s Hs]. exists s.
  rewrite <- Hs. reflexivity.
Qed.


(** C7. On an empty collection both summaries are all zero, and no
    exception is raised: [duration_stats] returns zero for count, min,
    max, mean, median, p95, p99 and stddev, [compute_percentiles] for
    p50, p95, p99, max, mean and stddev. *)
Theorem summary_of_empty_is_zero (math_sqrt : Q -> Q) (self : DDLAnalyzer) :
  duration_stats math_sqrt self (Some []) = Ok zero_duration_summary
  /\ duration_stats math_sqrt (DDLAnalyzer_init []) None = Ok zero_duration_summary
  /\ compute_percentiles math_sqrt [] = Ok zero_percentiles.
Proof.
  unfold duration_stats, compute_percentiles, DDLAnalyzer_init.
  cbn [operations]. repeat split.
Qed.

(** ** ddl_analyzer.py: blocking shares *)

Lemma inject_Z_nonzero (t : Z) : (t <> 0)%Z -> ~ inject_Z t == 0.
Proof. intros Ht. unfold Qeq. cbn. lia. Qed.

Lemma truediv_nonzero (a b : Q) : ~ b == 0 -> truediv a b = Ok (a / b).
Proof.
  intros Hb. unfold truediv. apply Qeqb_false in Hb. rewrite Hb. reflexivity.
Qed.

Lemma share_pct_positive (count total : Z) :
  (0 < total)%Z ->
  share_pct count total = Ok (inject_Z count / inject_Z total * 100).
Proof.
  intros Ht. unfold share_pct.
  destruct (Z.ltb_spec 0 total) as [_ | Hle]; [| lia].
  rewrite truediv_nonzero by (apply inject_Z_nonzero; lia). reflexivity.
Qed.

Lemma share_pct_nonpositive (count total : Z) :
  (total <= 0)%Z -> share_pct count total = Ok 0.
Proof.
  intros Ht. unfold share_pct.
  destruct (Z.ltb_spec 0 total) as [Hlt | _]; [lia | reflexivity].
Qed.

Lemma share_pct_returns (count total : Z) :
  exists v, share_pct count total = Ok v.
Proof.
  destruct (Z_lt_le_dec 0 total) as [Ht | Ht]; eexists;
    [apply share_pct_positive | apply share_pct_nonpositive]; exact Ht.
Qed.

Lemma share_pct_mono (c c' total : Z) (v v' : Q) :
  (c <= c')%Z ->
  share_pct c total = Ok v -> share_pct c' total = Ok v' -> v <= v'.
Proof.
  intros Hc Hv Hv'. destruct (Z_lt_le_dec 0 total) as [Ht | Ht].
  - rewrite share_pct_positive in Hv, Hv' by exact Ht.
    injection Hv as <-. injection Hv' as <-.
    rewrite Zle_Qle in Hc. unfold Qdiv.
    assert (Hinv : 0 <= / inject_Z total).
    { apply Qinv_le_0_compat. change 0 with (inject_Z 0).
      rewrite <- Zle_Qle. lia. }
    pose proof (Qmult_le_compat_r _ _ _ Hc Hinv). lra.
  - rewrite share_pct_nonpositive in Hv, Hv' by exact Ht.
    injection Hv as <-. injection Hv' as <-. apply Qle_refl.
Qed.

Lemma share_pct_range (count total : Z) (v : Q) :
  (0 <= count <= total)%Z -> share_pct count total = Ok v ->
  0 <= v /\ v <= 100.
Proof.
  intros [Hc0 Hct] Hv. destruct (Z_lt_le_dec 0 total) as [Ht | Ht].
  - rewrite share_pct_positive in Hv by exact Ht. injection Hv as <-.
    rewrite Zle_Qle in Hc0, Hct. change (inject_Z 0) with 0 in Hc0.
    assert (Hinv : 0 <= / inject_Z total).
    { apply Qinv_le_0_compat. change 0 with (inject_Z 0).
      rewrite <- Zle_Qle. lia. }
    assert (Hone : inject_Z total * / inject_Z total == 1)
      by (apply Qmult_inv_r, inject_Z_nonzero; lia).
    pose proof (Qmult_le_compat_r _ _ _ Hct Hinv).
    pose proof (Qmult_le_0_compat _ _ Hc0 Hinv).
    unfold Qdiv. split; lra.
  - rewrite share_pct_nonpositive in Hv by exact Ht. injection Hv as <-.
    split; lra.
Qed.

(** An operation counts as blocked by the recorder only if it was
    blocked and names a blocking agent. *)
Lemma blocked_by_flight_recorder_blocked (op : DDLOperation) :
  blocked_by_flight_recorder op = true ->
  was_blocked op = true
  /\ exists agent, blocked_by op = Some agent /\ agent <> "".
Proof.
  unfold blocked_by_flight_recorder, truthy.
  destruct (was_blocked op); cbn; [| discriminate].
  destruct (blocked_by op) as [[| c agent] |]; cbn; try discriminate.
  intros _. split; [reflexivity |]. eexists. split; [reflexivity | discriminate].
Qed.

Lemma filter_recorder_le_blocked (ops : list DDLOperation) :
  (length (List.filter blocked_by_flight_recorder ops)
   <= length (List.filter was_blocked ops))%nat.
Proof.
  induction ops as [| op t IH]; cbn; [lia |].
  destruct (blocked_by_flight_recorder op) eqn:Hfr.
  - apply blocked_by_flight_recorder_blocked in Hfr as [-> _]. cbn. lia.
  - destruct (was_blocked op); cbn; lia.
Qed.

(** C10. An operation blocked by the recorder was blocked and names a
    non-empty agent; hence [blocking_analysis] always returns, with
    fr_blocked <= total_blocked, fr_blocked_pct <= total_blocked_pct,
    both percentages between 0 and 100, and both 0 when there is no
    operation. *)
Theorem blocking_analysis_bounds
    (math_sqrt : Q -> Q) (ops : list DDLOperation) :
  (forall op, blocked_by_flight_recorder op = true ->
     was_blocked op = true
     /\ exists agent, blocked_by op = Some agent /\ agent <> "")
  /\ exists r,
       blocking_analysis math_sqrt (DDLAnalyzer_init ops) = Ok r
       /\ (fr_blocked r <= total_blocked r)%Z
       /\ fr_blocked_pct r <= total_blocked_pct r
       /\ (0 <= fr_blocked_pct r /\ fr_blocked_pct r <= 100)
       /\ (0 <= total_blocked_pct r /\ total_blocked_pct r <= 100)
       /\ (ops = [] -> fr_blocked_pct r = 0 /\ total_blocked_pct r = 0).
Proof.
  split; [exact blocked_by_flight_recorder_blocked |].
  unfold blocking_analysis, DDLAnalyzer_init. cbn [operations total_count].
  set (blocked := List.filter was_blocked ops).
  set (fr := List.filter blocked_by_flight_recorder ops).
  destruct (share_pct_returns (len blocked) (len ops)) as [bp Hbp].
  destruct (share_pct_returns (len fr) (len ops)) as [fp Hfp].
  destruct (duration_stats_returns math_sqrt
              {| operations := ops; total_count := len ops |} (Some blocked))
    as [bs Hbs].
  destruct (duration_stats_returns math_sqrt
              {| operations := ops; total_count := len ops |} (Some fr))
    as [fs Hfs].
  rewrite Hbp, Hfp. cbn [bind]. rewrite Hbs, Hfs. cbn [bind].
  eexists. split; [reflexivity |]. cbn.
  assert (Hfr_le : (len fr <= len blocked)%Z)
    by (unfold len, fr, blocked; pose proof (filter_recorder_le_blocked ops); lia).
  assert (Hb_le : (len blocked <= len ops)%Z)
    by (unfold len, blocked; pose proof (filter_length_le was_blocked ops); lia).
  pose proof (len_nonneg fr) as Hfr0. pose proof (len_nonneg blocked) as Hb0.
  split; [exact Hfr_le |].
  split; [apply (share_pct_mono (len fr) (len blocked) (len ops)); assumption |].
  split; [eapply share_pct_range; [| exact Hfp]; lia |].
  split; [eapply share_pct_range; [| exact Hbp]; lia |].
  intros ->. cbn in Hfp, Hbp. injection Hfp as <-. injection Hbp as <-.
  split; reflexivity.
Qed.

(** ** ddl_analyzer.py: collision projection *)

(** C6. For a non-zero interval, [collision_probability] returns
    collections_per_day = 86400 div interval_seconds and
    expected_collisions_per_day = collections_per_day * (rate / 100) *
    operations_per_hour * 24 for the measured block rate; a measured
    rate of 2 percent with interval 180 and 100 operations per hour
    gives 480 and 23040. *)
Theorem collision_probability_formula :
  (forall (ops : list DDLOperation) (interval_seconds operations_per_hour : Z),
      interval_seconds <> 0%Z ->
      exists measured r,
        measured_block_rate ops = Ok measured
        /\ collision_probability (DDLAnalyzer_init ops)
             interval_seconds operations_per_hour = Ok r
        /\ cp_collision_probability_pct r = measured
        /\ cp_collections_per_day r = (86400 / interval_seconds)%Z
        /\ cp_expected_collisions_per_day r
           == inject_Z (86400 / interval_seconds) * (measured / 100)
              * inject_Z operations_per_hour * 24)
  /\ exists r,
       collision_probability (DDLAnalyzer_init one_in_fifty) 180 100 = Ok r
       /\ cp_collision_probability_pct r == 2.0
       /\ cp_collections_per_day r = 480%Z
       /\ cp_expected_collisions_per_day r == 23040.
Proof.
  split.
  - intros ops interval_seconds operations_per_hour Hinterval.
    unfold measured_block_rate, collision_probability, DDLAnalyzer_init.
    cbn [operations total_count].
    destruct (share_pct_returns
                (len (List.filter blocked_by_flight_recorder ops)) (len ops))
      as [measured Hmeasured].
    rewrite Hmeasured. cbn [bind]. unfold floordiv.
    destruct (Z.eq_dec interval_seconds 0%Z) as [H0 | _]; [contradiction |].
    cbn [bind]. rewrite !truediv_nonzero by (intros H; discriminate H).
    cbn [bind]. exists measured. eexists. split; [reflexivity |].
    split; [reflexivity |]. cbn.
    split; [reflexivity |]. split; [reflexivity |].
    rewrite inject_Z_mult. change (inject_Z 24) with 24. ring.
  - vm_compute. eexists. split; [reflexivity |].
    repeat split; vm_compute; reflexivity.
Qed.

(** ** ddl_analyzer.py: blocking risk *)

Lemma risk_tier_thresholds (pct : Q) :
  (risk_tier_of pct = RiskLow <-> pct < 1)
  /\ (risk_tier_of pct = RiskModerate <-> 1 <= pct /\ pct < 3)
  /\ (risk_tier_of pct = RiskModerateHigh <-> 3 <= pct /\ pct < 5)
  /\ (risk_tier_of pct = RiskHigh <-> 5 <= pct).
Proof.
  unfold risk_tier_of. case_Qltb; repeat split;
    try reflexivity; try discriminate; try lra; intros; exfalso; lra.
Qed.

Lemma average_delay_returns (ops : list DDLOperation) :
  exists avg, average_delay ops = Ok avg.
Proof.
  unfold average_delay.
  destruct (List.filter blocked_by_flight_recorder ops) as [| o t] eqn:Hfr.
  - eexists. reflexivity.
  - eexists. apply mean_returns. discriminate.
Qed.

(** C9. [risk_assessment] reports the base tier of the measured block
    rate (LOW below 1 percent, MODERATE below 3, MODERATE-HIGH below 5,
    HIGH from 5 on) with its recommendation, and, exactly when the
    average delay exceeds 100 ms, appends the high-delay qualifier to
    both. *)
Theorem risk_assessment_tiers
    (format_fixed : nat -> Q -> string) (ops : list DDLOperation)
    (interval_seconds : Z) :
  exists pct avg risk recommendation,
    measured_block_rate ops = Ok pct
    /\ average_delay ops = Ok avg
    /\ risk_assessment format_fixed (DDLAnalyzer_init ops) interval_seconds
       = Ok (risk, recommendation)
    /\ (risk_tier_of pct = RiskLow <-> pct < 1)
    /\ (risk_tier_of pct = RiskModerate <-> 1 <= pct /\ pct < 3)
    /\ (risk_tier_of pct = RiskModerateHigh <-> 3 <= pct /\ pct < 5)
    /\ (risk_tier_of pct = RiskHigh <-> 5 <= pct)
    /\ (avg <= 100 ->
        risk = risk_tier_name (risk_tier_of pct)
        /\ recommendation = risk_tier_recommendation (risk_tier_of pct))
    /\ (100 < avg ->
        risk = risk_tier_name (risk_tier_of pct) ++ " (HIGH DELAY)"
        /\ recommendation
           = risk_tier_recommendation (risk_tier_of pct) ++ high_delay_note format_fixed avg).
Proof.
  destruct (share_pct_returns
              (len (List.filter blocked_by_flight_recorder ops)) (len ops))
    as [pct Hpct].
  destruct (average_delay_returns ops) as [avg Havg].
  exists pct, avg.
  assert (Hrun : risk_assessment format_fixed (DDLAnalyzer_init ops) interval_seconds =
    if Qltb 100 avg
    then Ok (risk_tier_name (risk_tier_of pct) ++ " (HIGH DELAY)",
             risk_tier_recommendation (risk_tier_of pct) ++ high_delay_note format_fixed avg)
    else Ok (risk_tier_name (risk_tier_of pct),
             risk_tier_recommendation (risk_tier_of pct))).
  { unfold risk_assessment, DDLAnalyzer_init. cbn [operations total_count].
    rewrite Hpct. cbn [bind]. unfold average_delay in Havg.
    assert (Hmean :
      match List.filter blocked_by_flight_recorder ops with
      | [] => Ok 0
      | _ :: _ =>
          mean (map duration_ms (List.filter blocked_by_flight_recorder ops))
      end = Ok avg) by exact Havg.
    rewrite Hmean. cbn [bind]. unfold risk_tier_of, high_delay_note.
    destruct (Qltb pct 1); [| destruct (Qltb pct 3); [| destruct (Qltb pct 5)]];
      destruct (Qltb 100 avg); reflexivity. }
  destruct (Qltb 100 avg) eqn:Hdelay; rewrite ?Hdelay in Hrun;
    [apply Qltb_true in Hdelay | apply Qltb_false in Hdelay];
    do 2 eexists;
    (split; [exact Hpct |]); (split; [exact Havg |]);
    (split; [exact Hrun |]);
    pose proof (risk_tier_thresholds pct) as (H1 & H2 & H3 & H4);
    (split; [exact H1 |]); (split; [exact H2 |]);
    (split; [exact H3 |]); (split; [exact H4 |]);
    split; intros Havg'; first [split; reflexivity | exfalso; lra].
Qed.

(** ** statistical_analysis.py: confidence interval *)

Lemma fold_left_Qplus_le (l : list Q) :
  forall a : Q, (forall x, In x l -> 0 <= x) -> a <= fold_left Qplus l a.
Proof.
  induction l as [| y t IH]; intros a Hl; cbn; [apply Qle_refl |].
  eapply Qle_trans; [| apply IH; intros x Hx; apply Hl; right; exact Hx].
  assert (0 <= y) by (apply Hl; left; reflexivity). lra.
Qed.

Lemma square_nonneg (y : Q) : 0 <= y * y.
Proof.
  destruct (Qlt_le_dec y 0) as [Hneg | Hpos].
  - assert (Hsq : y * y == (- y) * (- y)) by ring.
    rewrite Hsq. apply Qmult_le_0_compat; lra.
  - apply Qmult_le_0_compat; exact Hpos.
Qed.

Lemma sum_sq_dev_nonneg (data : list Q) : 0 <= sum_sq_dev data.
Proof.
  unfold sum_sq_dev, sum. apply fold_left_Qplus_le.
  intros x Hx. apply in_map_iff in Hx as [y [<- _]]. apply square_nonneg.
Qed.

(** C8. With fewer than two samples, [compute_confidence_interval]
    returns (mean, mean, 0), the mean being the single sample, or 0 when
    there is none.  With two or more it returns (mean - margin,
    mean + margin, margin) for margin = critical * stddev / sqrt(n),
    critical being 1.96 above 30 samples and 2.0 otherwise; the margin
    is not negative, so low <= mean <= high.  Of [math.sqrt] this uses
    only that the root of a positive float is positive and the root of
    a non-negative one is not negative. *)
Theorem compute_confidence_interval_shape
    (math_sqrt : Q -> Q) (values : list Q) (confidence : Q) :
  (forall x : Q, 0 < x -> 0 < math_sqrt x) ->
  (forall x : Q, 0 <= x -> 0 <= math_sqrt x) ->
  (compute_confidence_interval math_sqrt [] confidence = Ok (0, 0, 0))
  /\ (forall x : Q,
        compute_confidence_interval math_sqrt [x] confidence = Ok (x, x, 0)
        /\ exists mu, mean [x] = Ok mu /\ mu == x)
  /\ ((2 <= len values)%Z ->
      exists mu sd,
        mean values = Ok mu /\ stdev math_sqrt values = Ok sd
        /\ let critical := if (30 <? len values)%Z then 1.96 else 2.0 in
           let margin := critical * (sd / math_sqrt (inject_Z (len values))) in
           compute_confidence_interval math_sqrt values confidence
           = Ok (mu - margin, mu + margin, margin)
           /\ 0 <= margin /\ mu - margin <= mu /\ mu <= mu + margin).
Proof.
  intros math_sqrt_pos math_sqrt_nonneg.
  split; [reflexivity |]. split.
  - intros x. split; [reflexivity |]. eexists. split; [reflexivity |].
    unfold sum, len. cbn. field.
  - intros Hn.
    assert (Hne : values <> [])
      by (intros ->; unfold len in Hn; cbn in Hn; lia).
    assert (Hroot : 0 < math_sqrt (inject_Z (len values))).
    { apply math_sqrt_pos. change 0 with (inject_Z 0).
      rewrite <- Zlt_Qlt. lia. }
    assert (Hsd : 0 <= math_sqrt (sum_sq_dev values / inject_Z (len values - 1))).
    { apply math_sqrt_nonneg. apply Qle_shift_div_l.
      - change 0 with (inject_Z 0). rewrite <- Zlt_Qlt. lia.
      - rewrite Qmult_0_l. apply sum_sq_dev_nonneg. }
    do 2 eexists. split; [apply mean_returns, Hne |].
    split; [apply stdev_returns, Hn |]. cbv zeta.
    set (sd := math_sqrt (sum_sq_dev values / inject_Z (len values - 1))) in *.
    set (root := math_sqrt (inject_Z (len values))) in *.
    assert (Hstderr : 0 <= sd / root)
      by (apply Qle_shift_div_l; [exact Hroot | lra]).
    assert (Hmargin :
      0 <= (if (30 <? len values)%Z then 1.96 else 2.0) * (sd / root))
      by (destruct (30 <? len values)%Z; apply Qmult_le_0_compat;
          [discriminate | exact Hstderr | discriminate | exact Hstderr]).
    split; [| split; [exact Hmargin | split; lra]].
    unfold compute_confidence_interval.
    destruct (Z.ltb_spec (len values) 2) as [Hlt | _]; [lia |].
    rewrite mean_returns by exact Hne. cbn [bind].
    rewrite stdev_returns by exact Hn. cbn [bind].
    unfold py_sqrt.
    assert (Hnonneg : Qltb (inject_Z (len values)) 0 = false).
    { apply Qltb_false. change 0 with (inject_Z 0). rewrite <- Zle_Qle. lia. }
    rewrite Hnonneg. cbn [bind].
    rewrite truediv_nonzero by (fold root; lra). cbn [bind].
    reflexivity.
Qed.


(** ** Concrete runs *)

Lemma has_counters_snapshots (a b : Z) :
  has_counters {| start := snapshot a; end_ := snapshot b |}.
Proof.
  intros key Hkey. cbn [start end_].
  repeat (destruct Hkey as [<- | Hkey]; [split; eexists; reflexivity |]).
  destruct Hkey.
Qed.

(** C1, on a run whose counters were reset. *)
Lemma compare_database_stats_reports_raw_deltas_witness :
  exists metrics,
    compare_database_stats show_int_part reset_run steady_run = Ok metrics
    /\ forall key, In key database_stat_keys ->
         counter_reported reset_run steady_run metrics key.
Proof.
  exact (compare_database_stats_reports_raw_deltas show_int_part
           reset_run steady_run
           (has_counters_snapshots 10 5) (has_counters_snapshots 10 30)).
Defined.

(** C1 as stated fails: the baseline counter [xact_commit] goes from 10
    down to 5, and the comparison returns normally with the delta -5 and
    the impact it computes from it. *)
Lemma compare_database_stats_negative_delta_returned :
  delta (start reset_run) (end_ reset_run) "xact_commit" = Ok (-5)%Z
  /\ exists metrics entry,
       compare_database_stats show_int_part reset_run steady_run = Ok metrics
       /\ metrics !! "xact_commit" = Some entry
       /\ sc_baseline entry = (-5)%Z
       /\ sc_impact_pct entry == -500.
Proof.
  split; [reflexivity |].
  destruct (compare_database_stats show_int_part reset_run steady_run)
    as [metrics | e] eqn:Hrun; [| vm_compute in Hrun; discriminate Hrun].
  exists metrics.
  destruct (metrics !! "xact_commit") as [entry |] eqn:Hentry.
  - exists entry. split; [reflexivity |]. split; [reflexivity |].
    assert (Hcheck :
      match compare_database_stats show_int_part reset_run steady_run with
      | Ok m => match m !! "xact_commit" with
                | Some e => Some (sc_baseline e, Qred (sc_impact_pct e))
                | None => None
                end
      | Raise _ => None
      end = Some ((-5)%Z, -500)) by (vm_compute; reflexivity).
    rewrite Hrun, Hentry in Hcheck. injection Hcheck as Hb Hi.
    split; [exact Hb |]. rewrite <- (Qred_correct (sc_impact_pct entry)).
    rewrite Hi. reflexivity.
  - exfalso.
    assert (Hcheck :
      match compare_database_stats show_int_part reset_run steady_run with
      | Ok m => match m !! "xact_commit" with
                | Some _ => true
                | None => false
                end
      | Raise _ => false
      end = true) by (vm_compute; reflexivity).
    rewrite Hrun, Hentry in Hcheck. discriminate Hcheck.
Qed.



Lemma babylonian_sqrt_pos (x : Q) : 0 <= x -> 0 < babylonian_sqrt x.
Proof.
  intros Hx. unfold babylonian_sqrt. cbv zeta. rewrite Qred_correct.
  assert (Hg : 0 < (x + 1) / 2)
    by (apply Qlt_shift_div_l; [reflexivity | lra]).
  assert (Hq : 0 <= x / ((x + 1) / 2))
    by (apply Qle_shift_div_l; [exact Hg | lra]).
  apply Qlt_shift_div_l; [reflexivity | lra].
Qed.

(** C8, with the sample square root, on three samples. *)
Lemma compute_confidence_interval_shape_witness :
  (compute_confidence_interval babylonian_sqrt [] 0.95 = Ok (0, 0, 0))
  /\ (forall x : Q,
        compute_confidence_interval babylonian_sqrt [x] 0.95 = Ok (x, x, 0)
        /\ exists mu, mean [x] = Ok mu /\ mu == x)
  /\ ((2 <= len [1; 2; 3])%Z ->
      exists mu sd,
        mean [1; 2; 3] = Ok mu /\ stdev babylonian_sqrt [1; 2; 3] = Ok sd
        /\ let critical := if (30 <? len [1; 2; 3])%Z then 1.96 else 2.0 in
           let margin :=
             critical * (sd / babylonian_sqrt (inject_Z (len [1; 2; 3]))) in
           compute_confidence_interval babylonian_sqrt [1; 2; 3] 0.95
           = Ok (mu - margin, mu + margin, margin)
           /\ 0 <= margin /\ mu - margin <= mu /\ mu <= mu + margin).
Proof.
  apply (compute_confidence_interval_shape babylonian_sqrt [1; 2; 3] 0.95).
  - intros x Hx. apply babylonian_sqrt_pos. lra.
  - intros x Hx. apply Qlt_le_weak, babylonian_sqrt_pos. exact Hx.
Defined.

(** * Further properties of the code *)

(** ** compare.py: [calculate_impact] and [assess_impact] *)

(** X1. [calculate_impact] always returns.  With a zero baseline the
    impact is 0.  With a non-zero baseline the impact is 0 exactly when
    the two values agree; it is positive exactly when the test value is
    above a positive baseline, or below a negative one. *)
Theorem calculate_impact_sign_of_change (baseline test : Q) :
  exists impact,
    calculate_impact baseline test = Ok impact
    /\ (baseline == 0 -> impact == 0)
    /\ (~ baseline == 0 -> (impact == 0 <-> test == baseline))
    /\ (0 < baseline -> (0 < impact <-> baseline < test))
    /\ (baseline < 0 -> (0 < impact <-> test < baseline)).
Proof.
  destruct (Qeq_dec baseline 0) as [Hzero | Hnz].
  - exists 0.0. split; [apply calculate_impact_zero_baseline, Hzero |].
    split; [intros _; reflexivity |].
    repeat split; intros; try contradiction; exfalso; lra.
  - eexists. split; [apply calculate_impact_nonzero_baseline, Hnz |].
    pose proof (Qdiv_mult_l (test - baseline) baseline Hnz) as Hq.
    assert (Hq' : (test - baseline) / baseline * baseline == test - baseline).
    { rewrite <- Hq at 2. unfold Qdiv. ring. }
    set (x := (test - baseline) / baseline) in *. clearbody x. clear Hq.
    change 100.0 with (1000 # 10).
    split; [intros H; contradiction |].
    split.
    { intros _. split; intros H.
      - nra.
      - assert (Hxb : x * baseline == 0) by lra.
        apply Qmult_integral in Hxb as [Hx | Hb]; [lra | contradiction]. }
    split; intros Hb; split; intros H; nra.
Qed.

Lemma Qltb_compat (x x' c : Q) : x == x' -> Qltb x c = Qltb x' c.
Proof.
  intros Hx.
  destruct (Qltb x c) eqn:H1; [apply Qltb_true in H1 | apply Qltb_false in H1];
    (destruct (Qltb x' c) eqn:H2;
     [apply Qltb_true in H2 | apply Qltb_false in H2]);
    try reflexivity; exfalso; lra.
Qed.

Lemma tier_required_opp (x : Q) : tier_required (- x) = tier_required x.
Proof.
  unfold tier_required. rewrite !(Qltb_compat _ _ _ (Qabs_opp x)). reflexivity.
Qed.

Lemma worst_tier_comm (a b : SeverityLevel) : worst_tier a b = worst_tier b a.
Proof. destruct a, b; reflexivity. Qed.

Lemma assess_impact_label (t l : Q) :
  assess_impact t l = severity_label (classifyOverhead t l).
Proof.
  unfold assess_impact, classifyOverhead, tier_required.
  case_Qltb; cbn -[Qabs Qlt]; try reflexivity; exfalso; lra.
Qed.

(** X2. [assess_impact] looks at magnitudes only: changing the sign of
    either impact, or swapping the two impacts, leaves the assessment
    unchanged, so a throughput gain is rated like a loss of the same
    size. *)
Theorem assess_impact_ignores_direction (t l : Q) :
  assess_impact (- t) l = assess_impact t l
  /\ assess_impact t (- l) = assess_impact t l
  /\ assess_impact l t = assess_impact t l.
Proof.
  rewrite !assess_impact_label. unfold classifyOverhead.
  rewrite !tier_required_opp. repeat split.
  f_equal. apply worst_tier_comm.
Qed.

Lemma tier_required_mono (x y : Q) :
  Qabs x <= Qabs y ->
  (severity_rank (tier_required x) <= severity_rank (tier_required y))%nat.
Proof.
  intros Hxy. unfold tier_required.
  case_Qltb; cbn -[Qabs Qlt Qle]; try lia; exfalso; lra.
Qed.

Lemma worst_tier_rank (a b : SeverityLevel) :
  severity_rank (worst_tier a b) = Nat.max (severity_rank a) (severity_rank b).
Proof. destruct a, b; reflexivity. Qed.

(** X3. [assess_impact] is monotone in the magnitudes: if neither impact
    grows in absolute value, the assessment does not get worse. *)
Theorem assess_impact_monotone (t l t' l' : Q) :
  Qabs t <= Qabs t' -> Qabs l <= Qabs l' ->
  exists s s',
    assess_impact t l = severity_label s
    /\ assess_impact t' l' = severity_label s'
    /\ (severity_rank s <= severity_rank s')%nat.
Proof.
  intros Ht Hl. exists (classifyOverhead t l), (classifyOverhead t' l').
  split; [apply assess_impact_label |]. split; [apply assess_impact_label |].
  unfold classifyOverhead. rewrite !worst_tier_rank.
  pose proof (tier_required_mono t t' Ht).
  pose proof (tier_required_mono l l' Hl). lia.
Qed.

(** ** compare.py: the comparisons of two result files *)

Lemma compare_latency_loop_spec
    (format_fixed : nat -> Q -> string) (baseline test : run_result) :
  forall (names : list string) (metrics : gmap string latency_comparison),
    NoDup names ->
    (forall metric, In metric names ->
       is_Some (latency_ms baseline !! metric)
       /\ is_Some (latency_ms test !! metric)) ->
    exists m,
      compare_latency_loop format_fixed baseline test names metrics = Ok m
      /\ (forall metric, In metric names ->
            latency_reported format_fixed baseline test m metric)
      /\ (forall metric, ~ In metric names -> m !! metric = metrics !! metric).
Proof.
  induction names as [| name rest IH]; intros metrics Hnd Hpresent.
  - exists metrics. split; [reflexivity |]. split.
    + intros metric [].
    + intros metric _. reflexivity.
  - apply NoDup_cons in Hnd as [Hfresh Hnd].
    destruct (Hpresent name (or_introl eq_refl)) as [[b Hb] [t Ht]].
    destruct (calculate_impact_returns b t) as [v Hv].
    cbn [compare_latency_loop]. unfold dict_getitem.
    rewrite Hb, Ht. cbn [bind]. rewrite Hv. cbn [bind].
    edestruct IH as [m [Hm [Hin Hout]]]; [exact Hnd | |].
    { intros k Hk. apply Hpresent. right. exact Hk. }
    exists m. split; [exact Hm |]. split.
    + intros k [<- | Hk]; [| apply Hin; exact Hk].
      exists b, t. eexists. repeat split; try eassumption.
      * rewrite Hout; [apply lookup_insert_eq |].
        intros Hk. apply Hfresh. apply list_elem_of_In. exact Hk.
      * reflexivity.
      * reflexivity.
      * exact Hv.
      * reflexivity.
    + intros k Hk. rewrite Hout.
      * apply lookup_insert_ne. intros ->. apply Hk. left. reflexivity.
      * intros Hk'. apply Hk. right. exact Hk'.
Qed.

Lemma compare_latency_loop_missing
    (format_fixed : nat -> Q -> string) (baseline test : run_result) :
  forall (names : list string) (metrics : gmap string latency_comparison),
    (exists metric, In metric names
       /\ (latency_ms baseline !! metric = None
           \/ latency_ms test !! metric = None)) ->
    compare_latency_loop format_fixed baseline test names metrics
    = Raise KeyError.
Proof.
  induction names as [| name rest IH]; intros metrics [metric [Hin Hmiss]].
  - destruct Hin.
  - cbn [compare_latency_loop]. unfold dict_getitem.
    destruct (latency_ms baseline !! name) as [b |] eqn:Hb; [| reflexivity].
    destruct (latency_ms test !! name) as [t |] eqn:Ht; [| reflexivity].
    cbn [bind]. destruct (calculate_impact_returns b t) as [v Hv].
    rewrite Hv. cbn [bind]. apply IH. exists metric. split; [| exact Hmiss].
    destruct Hin as [<- | Hin]; [| exact Hin].
    exfalso. destruct Hmiss as [H | H]; congruence.
Qed.

Lemma latency_metric_names_NoDup : NoDup latency_metric_names.
Proof. apply (bool_decide_unpack _). vm_compute. exact I. Qed.

(** X4. [compare_latency] returns exactly the five metrics mean, p50,
    p95, p99 and max, each with the two values read, their impact and
    the impact formatted by [format_impact], when both files hold all
    five; when one is missing from either file it raises KeyError. *)
Theorem compare_latency_outcomes
    (format_fixed : nat -> Q -> string) (baseline test : run_result) :
  (has_latency_metrics baseline -> has_latency_metrics test ->
   exists m,
     compare_latency format_fixed baseline test = Ok m
     /\ (forall metric, is_Some (m !! metric) <-> In metric latency_metric_names)
     /\ (forall metric, In metric latency_metric_names ->
           latency_reported format_fixed baseline test m metric))
  /\ (latency_metric_missing baseline test ->
      compare_latency format_fixed baseline test = Raise KeyError).
Proof.
  split.
  - intros Hb Ht.
    destruct (compare_latency_loop_spec format_fixed baseline test
                latency_metric_names ∅ latency_metric_names_NoDup)
      as [m [Hm [Hin Hout]]].
    { intros metric Hmetric. split; [apply Hb | apply Ht]; exact Hmetric. }
    exists m. split; [exact Hm |]. split; [| exact Hin].
    intros metric. split.
    + intros Hsome. destruct (in_dec string_dec metric latency_metric_names)
        as [Hyes | Hno]; [exact Hyes |].
      rewrite (Hout metric Hno), lookup_empty in Hsome.
      destruct Hsome as [x Hx]. discriminate Hx.
    + intros Hmetric. destruct (Hin metric Hmetric)
        as (b & t & entry & _ & _ & Hentry & _). exists entry. exact Hentry.
  - intros Hmissing. apply compare_latency_loop_missing. exact Hmissing.
Qed.

Lemma compare_database_stats_loop_missing
    (format_fixed : nat -> Q -> string) (baseline test : database_stats) :
  forall (keys : list string) (metrics : gmap string stat_comparison),
    (exists key, In key keys
       /\ (start baseline !! key = None \/ end_ baseline !! key = None
           \/ start test !! key = None \/ end_ test !! key = None)) ->
    compare_database_stats_loop format_fixed baseline test keys metrics
    = Raise KeyError.
Proof.
  induction keys as [| k rest IH]; intros metrics [key [Hin Hmiss]].
  - destruct Hin.
  - cbn [compare_database_stats_loop]. unfold delta, dict_getitem.
    destruct (end_ baseline !! k) as [be |] eqn:Hbe; [| reflexivity].
    destruct (start baseline !! k) as [bs |] eqn:Hbs; [| reflexivity].
    cbn [bind].
    destruct (end_ test !! k) as [te |] eqn:Hte; [| reflexivity].
    destruct (start test !! k) as [ts |] eqn:Hts; [| reflexivity].
    cbn [bind].
    destruct (calculate_impact_returns (inject_Z (be - bs)) (inject_Z (te - ts)))
      as [v Hv].
    rewrite Hv. cbn [bind]. apply IH. exists key. split; [| exact Hmiss].
    destruct Hin as [<- | Hin]; [| exact Hin].
    exfalso. destruct Hmiss as [H | [H | [H | H]]]; congruence.
Qed.

(** X5. The result of [compare_database_stats] has exactly the eight
    counters as keys when all are present; when a counter is missing
    from one of the four snapshots the comparison raises KeyError. *)
Theorem compare_database_stats_keys_and_errors
    (format_fixed : nat -> Q -> string) (baseline test : database_stats) :
  (has_counters baseline -> has_counters test ->
   exists m,
     compare_database_stats format_fixed baseline test = Ok m
     /\ forall key, is_Some (m !! key) <-> In key database_stat_keys)
  /\ (counter_missing baseline test ->
      compare_database_stats format_fixed baseline test = Raise KeyError).
Proof.
  split.
  - intros Hb Ht.
    destruct (compare_database_stats_loop_spec format_fixed baseline test
                database_stat_keys ∅ database_stat_keys_NoDup)
      as [m [Hm [Hin Hout]]].
    { intros key Hkey. split; [apply Hb | apply Ht]; exact Hkey. }
    exists m. split; [exact Hm |]. intros key. split.
    + intros Hsome. destruct (in_dec string_dec key database_stat_keys)
        as [Hyes | Hno]; [exact Hyes |].
      rewrite (Hout key Hno), lookup_empty in Hsome.
      destruct Hsome as [x Hx]. discriminate Hx.
    + intros Hkey. destruct (Hin key Hkey)
        as (bs & be & ts & te & entry & _ & _ & _ & _ & Hentry & _).
      exists entry. exact Hentry.
  - intros Hmissing. apply compare_database_stats_loop_missing.
    exact Hmissing.
Qed.

Lemma calculate_impact_same (b v : Q) : calculate_impact b b = Ok v -> v == 0.
Proof.
  intros Hv. destruct (Qeq_dec b 0) as [Hzero | Hnz].
  - rewrite (calculate_impact_zero_baseline b b Hzero) in Hv.
    injection Hv as <-. reflexivity.
  - rewrite (calculate_impact_nonzero_baseline b b Hnz) in Hv.
    injection Hv as <-. unfold Qdiv. ring.
Qed.

Lemma assess_impact_negligible (t l : Q) :
  Qabs t < 2 -> Qabs l < 2 -> assess_impact t l = severity_label NEGLIGIBLE.
Proof.
  intros Ht Hl. unfold assess_impact.
  apply Qltb_true in Ht. apply Qltb_true in Hl. rewrite Ht, Hl. reflexivity.
Qed.

Lemma all_or_missing {A : Type} (P R : A -> Prop) (l : list A) :
  (forall x, P x \/ R x) ->
  (forall x, In x l -> P x) \/ (exists x, In x l /\ R x).
Proof.
  intros Hdec. induction l as [| y t IH].
  - left. intros x [].
  - destruct (Hdec y) as [Hy | Hy]; [| right; exists y; split; [left |]; auto].
    destruct IH as [Hall | [x [Hx Hr]]].
    + left. intros x [<- | Hx]; auto.
    + right. exists x. split; [right |]; auto.
Qed.

Lemma lookup_some_or_none {V : Type} (d : gmap string V) (key : string) :
  is_Some (d !! key) \/ d !! key = None.
Proof. destruct (d !! key); [left; eexists; reflexivity | right; reflexivity]. Qed.

Lemma compare_latency_returns_or_KeyError
    (format_fixed : nat -> Q -> string) (baseline test : run_result) :
  (exists m, compare_latency format_fixed baseline test = Ok m
             /\ is_Some (m !! "p95"))
  \/ compare_latency format_fixed baseline test = Raise KeyError.
Proof.
  destruct (all_or_missing
              (fun metric => is_Some (latency_ms baseline !! metric)
                             /\ is_Some (latency_ms test !! metric))
              (fun metric => latency_ms baseline !! metric = None
                             \/ latency_ms test !! metric = None)
              latency_metric_names) as [Hall | Hmissing].
  - intros metric.
    destruct (lookup_some_or_none (latency_ms baseline) metric);
      destruct (lookup_some_or_none (latency_ms test) metric); tauto.
  - left.
    destruct (compare_latency_loop_spec format_fixed baseline test
                latency_metric_names ∅ latency_metric_names_NoDup Hall)
      as [m [Hm [Hin _]]].
    exists m. split; [exact Hm |].
    destruct (Hin "p95") as (b & t & entry & _ & _ & Hentry & _).
    { cbn. tauto. }
    exists entry. exact Hentry.
  - right. apply compare_latency_loop_missing. exact Hmissing.
Qed.

Lemma compare_database_stats_returns_or_KeyError
    (format_fixed : nat -> Q -> string) (baseline test : database_stats) :
  (exists m, compare_database_stats format_fixed baseline test = Ok m)
  \/ compare_database_stats format_fixed baseline test = Raise KeyError.
Proof.
  destruct (all_or_missing
              (fun key =>
                 (is_Some (start baseline !! key)
                  /\ is_Some (end_ baseline !! key))
                 /\ is_Some (start test !! key) /\ is_Some (end_ test !! key))
              (fun key =>
                 start baseline !! key = None \/ end_ baseline !! key = None
                 \/ start test !! key = None \/ end_ test !! key = None)
              database_stat_keys) as [Hall | Hmissing].
  - intros key.
    destruct (lookup_some_or_none (start baseline) key);
      destruct (lookup_some_or_none (end_ baseline) key);
      destruct (lookup_some_or_none (start test) key);
      destruct (lookup_some_or_none (end_ test) key); tauto.
  - left.
    destruct (compare_database_stats_loop_spec format_fixed baseline test
                database_stat_keys ∅ database_stat_keys_NoDup Hall)
      as [m [Hm _]].
    exists m. exact Hm.
  - right. apply compare_database_stats_loop_missing. exact Hmissing.
Qed.

Lemma compare_throughput_returns_or_KeyError
    (format_fixed : nat -> Q -> string) (baseline test : run_result) :
  (exists t, compare_throughput format_fixed baseline test = Ok t)
  \/ compare_throughput format_fixed baseline test = Raise KeyError.
Proof.
  unfold compare_throughput, dict_getitem.
  destruct (throughput baseline !! "tps") as [bt |]; [| right; reflexivity].
  destruct (throughput test !! "tps") as [tt |]; [| right; reflexivity].
  cbn [bind]. destruct (calculate_impact_returns bt tt) as [v Hv].
  rewrite Hv. cbn [bind]. left. eexists. reflexivity.
Qed.

(** X6. The comparison steps of [main] either complete or raise
    KeyError: a zero baseline value never makes them fail with a
    division error.  When they complete, the assessment is
    [assess_impact] of the throughput impact and the p95 latency
    impact. *)
Theorem compare_runs_returns_or_KeyError
    (format_fixed : nat -> Q -> string) (baseline test : run_result) :
  (exists c a p95,
     compare_runs format_fixed baseline test = Ok (c, a)
     /\ compare_throughput format_fixed baseline test = Ok (cmp_throughput c)
     /\ compare_latency format_fixed baseline test = Ok (cmp_latency c)
     /\ compare_database_stats format_fixed (run_database_stats baseline)
          (run_database_stats test) = Ok (cmp_database_stats c)
     /\ cmp_latency c !! "p95" = Some p95
     /\ a = assess_impact (tc_impact_pct (cmp_throughput c)) (lc_impact_pct p95))
  \/ compare_runs format_fixed baseline test = Raise KeyError.
Proof.
  unfold compare_runs.
  destruct (compare_throughput_returns_or_KeyError format_fixed baseline test)
    as [[t Ht] | Ht]; rewrite Ht; cbn [bind]; [| right; reflexivity].
  destruct (compare_latency_returns_or_KeyError format_fixed baseline test)
    as [[l [Hl [p95 Hp95]]] | Hl]; rewrite Hl; cbn [bind];
    [| right; reflexivity].
  destruct (compare_database_stats_returns_or_KeyError format_fixed
              (run_database_stats baseline) (run_database_stats test))
    as [[d Hd] | Hd]; rewrite Hd; cbn [bind]; [| right; reflexivity].
  unfold dict_getitem. rewrite Hp95. cbn [bind].
  left. do 2 eexists. exists p95. split; [reflexivity |]. cbn.
  repeat split. exact Hp95.
Qed.

(** X7. Comparing a results file with itself reports no impact: the
    throughput impact, every latency impact and every counter impact are
    0, and the assessment is NEGLIGIBLE, also where a value is 0. *)
Theorem compare_runs_same_file
    (format_fixed : nat -> Q -> string) (run : run_result) :
  is_Some (throughput run !! "tps") ->
  has_latency_metrics run ->
  has_counters (run_database_stats run) ->
  exists c,
    compare_runs format_fixed run run = Ok (c, severity_label NEGLIGIBLE)
    /\ tc_impact_pct (cmp_throughput c) == 0
    /\ (forall metric entry,
          cmp_latency c !! metric = Some entry -> lc_impact_pct entry == 0)
    /\ (forall key entry,
          cmp_database_stats c !! key = Some entry ->
          sc_impact_pct entry == 0 /\ sc_baseline entry = sc_test entry).
Proof.
  intros [tps Htps] Hlat Hdb.
  destruct (compare_latency_loop_spec format_fixed run run
              latency_metric_names ∅ latency_metric_names_NoDup)
    as [l [Hl [Hlin Hlout]]].
  { intros metric Hmetric. split; apply Hlat; exact Hmetric. }
  destruct (compare_database_stats_loop_spec format_fixed
              (run_database_stats run) (run_database_stats run)
              database_stat_keys ∅ database_stat_keys_NoDup)
    as [d [Hd [Hdin Hdout]]].
  { intros key Hkey. split; apply Hdb; exact Hkey. }
  destruct (calculate_impact_returns tps tps) as [v Hv].
  pose proof (calculate_impact_same tps v Hv) as Hv0.
  destruct (Hlin "p95") as (b & t & p95 & Hb & Ht & Hp95 & _ & _ & Himp & _).
  { cbn. tauto. }
  rewrite Hb in Ht. injection Ht as <-.
  pose proof (calculate_impact_same b _ Himp) as Hp0.
  unfold compare_runs, compare_throughput, dict_getitem.
  rewrite Htps. cbn [bind]. rewrite Hv. cbn [bind].
  fold (compare_latency format_fixed run run) in Hl. rewrite Hl. cbn [bind].
  fold (compare_database_stats format_fixed (run_database_stats run)
          (run_database_stats run)) in Hd.
  rewrite Hd. cbn [bind]. rewrite Hp95. cbn [bind].
  eexists. split.
  { f_equal. f_equal. cbn [tc_impact_pct].
    apply assess_impact_negligible; apply Qabs_Qlt_condition; lra. }
  cbn. split; [exact Hv0 |]. split.
  - intros metric entry Hentry.
    destruct (in_dec string_dec metric latency_metric_names) as [Hyes | Hno].
    + destruct (Hlin metric Hyes)
        as (b' & t' & e' & Hb' & Ht' & He' & _ & _ & Himp' & _).
      rewrite Hb' in Ht'. injection Ht' as <-.
      rewrite He' in Hentry. injection Hentry as <-.
      apply (calculate_impact_same b'). exact Himp'.
    + rewrite (Hlout metric Hno), lookup_empty in Hentry. discriminate Hentry.
  - intros key entry Hentry.
    destruct (in_dec string_dec key database_stat_keys) as [Hyes | Hno].
    + destruct (Hdin key Hyes)
        as (bs & be & ts & te & e' & Hbs & Hbe & Hts & Hte & He' & Hsb & Hst
            & Himp').
      rewrite Hbs in Hts. injection Hts as <-.
      rewrite Hbe in Hte. injection Hte as <-.
      rewrite He' in Hentry. injection Hentry as <-.
      split; [| congruence].
      apply (calculate_impact_same (inject_Z (be - bs))). exact Himp'.
    + rewrite (Hdout key Hno), lookup_empty in Hentry. discriminate Hentry.
Qed.

(** ** ddl_analyzer.py: recorder detection and [percentile] *)

Lemma prefix_spec (needle : string) :
  forall hay : string,
    String.prefix needle hay = true <-> exists post, hay = needle ++ post.
Proof.
  induction needle as [| c needle IH]; intros hay.
  - split; [intros _; exists hay; reflexivity |].
    intros _. destruct hay; reflexivity.
  - destruct hay as [| d hay]; cbn [String.prefix].
    + split; [discriminate | intros [post Hpost]; discriminate Hpost].
    + destruct (ascii_dec c d) as [<- | Hne].
      * rewrite IH. split; intros [post Hpost]; exists post.
        -- rewrite Hpost. reflexivity.
        -- injection Hpost as Hpost. exact Hpost.
      * split; [discriminate |].
        intros [post Hpost]. injection Hpost as Hc _. congruence.
Qed.

Lemma contains_spec (needle : string) :
  forall hay : string,
    contains needle hay = true
    <-> exists pre post, hay = pre ++ needle ++ post.
Proof.
  induction hay as [| c hay IH]; cbn [contains].
  - rewrite orb_false_r, prefix_spec. split.
    + intros [post Hpost]. exists "", post. exact Hpost.
    + intros [pre [post Hpost]]. destruct pre as [| d pre];
        [exists post; exact Hpost | discriminate Hpost].
  - rewrite orb_true_iff, prefix_spec, IH. split.
    + intros [[post Hpost] | [pre [post Hpost]]].
      * exists "", post. exact Hpost.
      * exists (String c pre), post. rewrite Hpost. reflexivity.
    + intros [pre [post Hpost]]. destruct pre as [| d pre].
      * left. exists post. exact Hpost.
      * right. injection Hpost as _ Hpost. exists pre, post. exact Hpost.
Qed.

(** X8. An operation counts as blocked by the recorder exactly when it
    was blocked and the lower-cased name of its blocking agent contains
    the text flight_recorder; an absent or empty agent never counts. *)
Theorem blocked_by_flight_recorder_iff (op : DDLOperation) :
  blocked_by_flight_recorder op = true
  <-> was_blocked op = true
      /\ exists agent pre post,
           blocked_by op = Some agent
           /\ lower agent = pre ++ "flight_recorder" ++ post.
Proof.
  unfold blocked_by_flight_recorder, truthy.
  destruct (was_blocked op); cbn [negb orb];
    [| split; [discriminate | intros [H _]; discriminate H]].
  destruct (blocked_by op) as [agent |]; cbn [negb orb].
  - destruct agent as [| c agent]; cbn [negb].
    + split; [discriminate |].
      intros [_ (agent & pre & post & Hagent & Hlower)].
      injection Hagent as <-. cbn in Hlower.
      destruct pre; discriminate Hlower.
    + rewrite contains_spec. split.
      * intros [pre [post H]]. split; [reflexivity |].
        exists (String c agent), pre, post. split; [reflexivity | exact H].
      * intros [_ (agent' & pre & post & Hagent & Hlower)].
        injection Hagent as <-. exists pre, post. exact Hlower.
  - split; [discriminate |].
    intros [_ (agent & pre & post & Hagent & _)]. discriminate Hagent.
Qed.

Lemma getitem_negative {A : Type} (l : list A) (i : Z) (d : A) :
  (- len l <= i < 0)%Z ->
  getitem l i = Ok (nth (Z.to_nat (i + len l)) l d).
Proof.
  intros Hi. unfold getitem.
  destruct (Z.ltb_spec i 0) as [_ | Hge]; [| lia].
  destruct (Z.ltb_spec (i + len l) 0) as [Hneg | _]; [lia |].
  destruct (nth_error l (Z.to_nat (i + len l))) as [x |] eqn:Hx.
  - f_equal. symmetry. apply nth_error_nth. exact Hx.
  - apply nth_error_None in Hx. unfold len in *. lia.
Qed.

Lemma getitem_out_of_range {A : Type} (l : list A) (i : Z) :
  (len l <= i \/ i < - len l)%Z -> getitem l i = Raise IndexError.
Proof.
  intros Hi. unfold getitem.
  destruct (Z.ltb_spec i 0) as [Hneg | Hge].
  - destruct (Z.ltb_spec (i + len l) 0) as [_ | Hpos];
      [reflexivity | pose proof (len_nonneg l); lia].
  - destruct (Z.ltb_spec i 0) as [Hneg | _]; [lia |].
    destruct (nth_error l (Z.to_nat i)) as [x |] eqn:Hx; [| reflexivity].
    assert (Hlt : (Z.to_nat i < length l)%nat)
      by (apply nth_error_Some; congruence).
    unfold len in Hi. lia.
Qed.

(** X9. With two or more values, [percentile] truncates [p] to an
    integer k and indexes the 99 cut points of the 100-bin quantiles
    with k - 1: for k from 1 to 99 it returns cut point k; for k from
    -98 to 0 the negative index wraps around and it returns cut point
    k + 99 (so p = 0 gives the 99th); for k of 100 or more, or of -99 or
    less, it raises IndexError. *)
Theorem percentile_index_behaviour (values : list Q) (p : Q) :
  (2 <= len values)%Z ->
  ((1 <= int_ p <= 99)%Z ->
   percentile values p
   = Ok (quantile_point (sorted values) (len values) 100 (int_ p)))
  /\ ((-98 <= int_ p <= 0)%Z ->
      percentile values p
      = Ok (quantile_point (sorted values) (len values) 100 (int_ p + 99)))
  /\ ((100 <= int_ p \/ int_ p <= -99)%Z ->
      percentile values p = Raise IndexError).
Proof.
  intros Hlen.
  assert (Hrun : percentile values p =
    getitem (map (quantile_point (sorted values) (len values) 100)
               (range 1 100)) (int_ p - 1)).
  { unfold percentile.
    destruct values as [| x t]; [unfold len in Hlen; cbn in Hlen; lia |].
    destruct (Z.ltb_spec 1 (len (x :: t))) as [_ | Hle]; [| lia].
    unfold quantiles. cbv zeta. rewrite sorted_idempotent, sorted_len.
    change (100 <? 1)%Z with false. cbv iota.
    destruct (Z.ltb_spec (len (x :: t)) 2) as [Hlt | _]; [lia |].
    reflexivity. }
  rewrite Hrun.
  assert (Hcuts : len (map (quantile_point (sorted values) (len values) 100)
                         (range 1 100)) = 99%Z)
    by (unfold len; rewrite length_map, range_length; reflexivity).
  split; [| split]; intros Hk.
  - rewrite getitem_nth with (d := 0) by lia.
    rewrite nth_map_in with (d' := 0%Z) by (rewrite range_length; lia).
    rewrite range_nth by lia. reflexivity.
  - rewrite getitem_negative with (d := 0) by lia. rewrite Hcuts.
    rewrite nth_map_in with (d' := 0%Z) by (rewrite range_length; lia).
    replace (int_ p - 1 + 99)%Z with (int_ p + 99 - 1)%Z by lia.
    rewrite range_nth by lia. reflexivity.
  - apply getitem_out_of_range. rewrite Hcuts. lia.
Qed.

(** ** Summary statistics: range, mean and constant samples *)

Lemma fold_left_Qplus_shift (l : list Q) :
  forall a : Q, fold_left Qplus l a == a + fold_left Qplus l 0.
Proof.
  induction l as [| x t IH]; intros a; cbn; [ring |].
  rewrite (IH (a + x)), (IH (0 + x)). ring.
Qed.

Lemma sum_cons (x : Q) (t : list Q) : sum (x :: t) == x + sum t.
Proof. unfold sum. cbn. rewrite fold_left_Qplus_shift. ring. Qed.

Lemma sum_bounds (lo hi : Q) (l : list Q) :
  (forall x, In x l -> lo <= x /\ x <= hi) ->
  inject_Z (len l) * lo <= sum l /\ sum l <= inject_Z (len l) * hi.
Proof.
  induction l as [| x t IH]; intros Hl.
  - change (inject_Z (len [])) with 0. change (sum []) with 0. split; lra.
  - rewrite sum_cons, len_cons, inject_Z_plus. change (inject_Z 1) with 1.
    destruct (Hl x (or_introl eq_refl)) as [Hlo Hhi].
    destruct IH as [IHlo IHhi]; [intros y Hy; apply Hl; right; exact Hy |].
    split; lra.
Qed.

Lemma mean_bounds (lo hi : Q) (l : list Q) :
  l <> [] ->
  (forall x, In x l -> lo <= x /\ x <= hi) ->
  exists mu, mean l = Ok mu /\ lo <= mu /\ mu <= hi.
Proof.
  intros Hne Hl. eexists. split; [apply mean_returns, Hne |].
  pose proof (len_pos l Hne) as Hpos.
  assert (Hn : 0 < inject_Z (len l))
    by (change 0 with (inject_Z 0); rewrite <- Zlt_Qlt; lia).
  destruct (sum_bounds lo hi l Hl) as [Hlo Hhi]. split.
  - apply Qle_shift_div_l; [exact Hn | lra].
  - apply Qle_shift_div_r; [exact Hn | lra].
Qed.

(** X10. For a non-empty list of operations, [duration_stats] reports
    the number of operations as count, a smallest and a largest duration
    actually present as min and max, and a mean between the two. *)
Theorem duration_stats_range_and_mean
    (math_sqrt : Q -> Q) (self : DDLAnalyzer) (ops : list DDLOperation) :
  ops <> [] ->
  exists s,
    duration_stats math_sqrt self (Some ops) = Ok s
    /\ ds_count s = len ops
    /\ In (ds_min s) (map duration_ms ops)
    /\ In (ds_max s) (map duration_ms ops)
    /\ (forall op, In op ops ->
          ds_min s <= duration_ms op /\ duration_ms op <= ds_max s)
    /\ ds_min s <= ds_mean s /\ ds_mean s <= ds_max s.
Proof.
  intros Hops.
  destruct (duration_stats_nonempty math_sqrt self ops Hops)
    as (s & Hs & Hcount & Hmn & Hmx & Hmu & _).
  pose proof (map_nonempty duration_ms ops Hops) as Hd.
  destruct (py_min_spec _ Hd) as [mn [Hmn' [Hmn_in Hmn_le]]].
  destruct (py_max_spec _ Hd) as [mx [Hmx' [Hmx_in Hmx_ge]]].
  rewrite Hmn in Hmn'. injection Hmn' as <-.
  rewrite Hmx in Hmx'. injection Hmx' as <-.
  destruct (mean_bounds (ds_min s) (ds_max s) _ Hd) as [mu [Hmu' Hbounds]].
  { intros x Hx. split; [apply Hmn_le | apply Hmx_ge]; exact Hx. }
  rewrite Hmu in Hmu'. injection Hmu' as <-.
  exists s. split; [exact Hs |]. split; [exact Hcount |].
  split; [exact Hmn_in |]. split; [exact Hmx_in |].
  split; [| exact Hbounds].
  intros op Hop. split; [apply Hmn_le | apply Hmx_ge]; apply in_map; exact Hop.
Qed.

(** X11. When all durations are equal to one value, [duration_stats]
    reports that value as min, max, mean and median.  (Its p95 and p99
    are interpolated cut points and are not covered here.) *)
Theorem duration_stats_constant_sample
    (math_sqrt : Q -> Q) (self : DDLAnalyzer) (ops : list DDLOperation)
    (v : Q) :
  ops <> [] ->
  (forall op, In op ops -> duration_ms op == v) ->
  exists s,
    duration_stats math_sqrt self (Some ops) = Ok s
    /\ ds_min s == v /\ ds_max s == v /\ ds_mean s == v
    /\ ds_median s == v.
Proof.
  intros Hops Hconst.
  destruct (duration_stats_nonempty math_sqrt self ops Hops)
    as (s & Hs & _ & Hmn & Hmx & Hmu & Hmd & _).
  pose proof (map_nonempty duration_ms ops Hops) as Hd.
  assert (Hall : forall x, In x (map duration_ms ops) -> x == v).
  { intros x Hx. apply in_map_iff in Hx as [op [<- Hop]]. apply Hconst, Hop. }
  set (d := map duration_ms ops) in *. clearbody d.
  destruct (py_min_spec d Hd) as [mn [Hmn' [Hmn_in _]]].
  destruct (py_max_spec d Hd) as [mx [Hmx' [Hmx_in _]]].
  rewrite Hmn in Hmn'. injection Hmn' as <-.
  rewrite Hmx in Hmx'. injection Hmx' as <-.
  destruct (mean_bounds v v d Hd) as [mu [Hmu' Hbounds]].
  { intros x Hx. rewrite (Hall x Hx). split; apply Qle_refl. }
  rewrite Hmu in Hmu'. injection Hmu' as <-.
  destruct (median_between d Hd) as [md [Hmd' [Hlo Hhi]]].
  rewrite Hmd in Hmd'. injection Hmd' as <-.
  pose proof (len_pos d Hd) as Hpos.
  assert (Hlen : len d = Z.of_nat (length d)) by reflexivity.
  assert (Hlo' : nth (Z.to_nat ((len d - 1) / 2)) (sorted d) 0 == v)
    by (apply Hall, sorted_nth_In; zlia).
  assert (Hhi' : nth (Z.to_nat (len d / 2)) (sorted d) 0 == v)
    by (apply Hall, sorted_nth_In; zlia).
  rewrite Hlo' in Hlo. rewrite Hhi' in Hhi.
  exists s. split; [exact Hs |].
  split; [apply Hall, Hmn_in |]. split; [apply Hall, Hmx_in |].
  split; lra.
Qed.

Lemma sorted_last_is_max (l : list Q) (x : Q) :
  In x l -> x <= nth (length l - 1) (sorted l) 0.
Proof.
  intros Hx. apply sorted_In in Hx.
  destruct (In_nth _ _ 0 Hx) as [i [Hi Hnth]]. rewrite <- Hnth.
  rewrite sorted_length in Hi. apply sorted_nth_le. lia.
Qed.

(** [compute_percentiles] on a non-empty list, with the positions it
    reads in the sorted samples. *)
Lemma compute_percentiles_nonempty (math_sqrt : Q -> Q) (values : list Q) :
  values <> [] ->
  exists s,
    compute_percentiles math_sqrt values = Ok s
    /\ pc_p50 s = nth (Z.to_nat (len values * 50 / 100)) (sorted values) 0
    /\ pc_p95 s = nth (Z.to_nat (len values * 95 / 100)) (sorted values) 0
    /\ pc_p99 s = nth (Z.to_nat (len values * 99 / 100)) (sorted values) 0
    /\ pc_max s = nth (length values - 1) (sorted values) 0
    /\ mean values = Ok (pc_mean s).
Proof.
  intros Hvalues. pose proof (len_pos values Hvalues) as Hpos.
  assert (Hlen : len values = Z.of_nat (length values)) by reflexivity.
  assert (Hne : sorted values <> []).
  { intros Heq. apply (f_equal (@length Q)) in Heq.
    rewrite sorted_length in Heq. cbn in Heq. lia. }
  destruct (guarded_stdev_returns math_sqrt values) as [sd Hsd].
  destruct values as [| x t]; [congruence |].
  unfold compute_percentiles. cbv zeta. rewrite sorted_len.
  rewrite mean_returns by discriminate. cbn [bind].
  rewrite Hsd. cbn [bind].
  change 0.50 with (50 # 100). change 0.95 with (95 # 100).
  change 0.99 with (99 # 100).
  rewrite !int_scaled by lia.
  rewrite !getitem_nth with (d := 0) by (rewrite sorted_len; zlia).
  rewrite getitem_last with (d := 0) by exact Hne.
  rewrite sorted_length. cbn [bind].
  eexists. split; [reflexivity |]. cbn [pc_p50 pc_p95 pc_p99 pc_max pc_mean].
  repeat split.
Qed.

(** X12. For non-empty samples, [compute_percentiles] reports as p50,
    p95, p99 and max values that occur among the samples (no
    interpolation); max is not below any sample, and the mean is not
    above max. *)
Theorem compute_percentiles_reports_samples
    (math_sqrt : Q -> Q) (values : list Q) :
  values <> [] ->
  exists s,
    compute_percentiles math_sqrt values = Ok s
    /\ In (pc_p50 s) values /\ In (pc_p95 s) values
    /\ In (pc_p99 s) values /\ In (pc_max s) values
    /\ (forall x, In x values -> x <= pc_max s)
    /\ pc_mean s <= pc_max s.
Proof.
  intros Hvalues. pose proof (len_pos values Hvalues) as Hpos.
  assert (Hlen : len values = Z.of_nat (length values)) by reflexivity.
  destruct (compute_percentiles_nonempty math_sqrt values Hvalues)
    as (s & Hs & H50 & H95 & H99 & Hmx & Hmu).
  exists s. split; [exact Hs |].
  rewrite H50, H95, H99, Hmx.
  split; [apply sorted_nth_In; zlia |]. split; [apply sorted_nth_In; zlia |].
  split; [apply sorted_nth_In; zlia |]. split; [apply sorted_nth_In; lia |].
  split; [intros x Hx; apply sorted_last_is_max, Hx |].
  destruct (mean_bounds (nth 0 (sorted values) 0)
              (nth (length values - 1) (sorted values) 0) values Hvalues)
    as [mu [Hmu' [_ Hhi]]].
  { intros x Hx. split; [| apply sorted_last_is_max, Hx].
    apply sorted_In in Hx. destruct (In_nth _ _ 0 Hx) as [i [Hi Hnth]].
    rewrite <- Hnth. rewrite sorted_length in Hi. apply sorted_nth_le. lia. }
  rewrite Hmu in Hmu'. injection Hmu' as <-. exact Hhi.
Qed.

(** ** ddl_analyzer.py: [ddl_type_breakdown] *)

Lemma types_in_order_In (ops : list DDLOperation) (ty : string) :
  In ty (types_in_order ops) <-> exists op, In op ops /\ ddl_type op = ty.
Proof.
  unfold types_in_order. rewrite <- in_rev, nodup_In, <- in_rev, in_map_iff.
  split; intros [op [H1 H2]]; exists op; tauto.
Qed.

Lemma types_in_order_NoDup (ops : list DDLOperation) :
  NoDup (types_in_order ops).
Proof.
  unfold types_in_order. apply NoDup_ListNoDup, List.NoDup_rev, NoDup_nodup.
Qed.

Lemma types_in_order_snoc (ops : list DDLOperation) (op : DDLOperation) :
  types_in_order (ops ++ [op])%list =
  if in_dec string_dec (ddl_type op) (types_in_order ops)
  then types_in_order ops
  else (types_in_order ops ++ [ddl_type op])%list.
Proof.
  unfold types_in_order. rewrite map_app, rev_app_distr. cbn [map rev app].
  cbn [nodup].
  destruct (in_dec string_dec (ddl_type op) (rev (map ddl_type ops)))
    as [Hin | Hout];
    destruct (in_dec string_dec (ddl_type op)
                (rev (nodup string_dec (rev (map ddl_type ops)))))
      as [Hin' | Hout']; try reflexivity.
  - exfalso. apply Hout'. rewrite <- in_rev, nodup_In. exact Hin.
  - exfalso. apply Hout. rewrite <- in_rev, nodup_In in Hin'. exact Hin'.
Qed.

Lemma dict_has_map {V : Type} (g : string -> V) (key : string)
    (keys : list string) :
  dict_has key (map (fun ty => (ty, g ty)) keys) = true <-> In key keys.
Proof.
  induction keys as [| k t IH]; cbn; [split; [discriminate | tauto] |].
  rewrite orb_true_iff, IH, String.eqb_eq. tauto.
Qed.

Lemma dict_update_map {V : Type} (g : string -> V) (f : V -> V)
    (key : string) (keys : list string) :
  NoDup keys ->
  dict_update key f (map (fun ty => (ty, g ty)) keys)
  = map (fun ty => (ty, if String.eqb ty key then f (g ty) else g ty)) keys.
Proof.
  induction 1 as [| k t Hk Hnd IH]; cbn; [reflexivity |].
  destruct (String.eqb_spec k key) as [-> | Hne].
  - f_equal. apply map_ext_in. intros ty Hty.
    destruct (String.eqb_spec ty key) as [-> | _]; [| reflexivity].
    exfalso. apply Hk. apply list_elem_of_In. exact Hty.
  - f_equal. exact IH.
Qed.

Lemma ops_of_type_absent (ops : list DDLOperation) (ty : string) :
  ~ In ty (types_in_order ops) -> ops_of_type ty ops = [].
Proof.
  intros Habsent. unfold ops_of_type.
  assert (Hnone : forall op, In op ops -> has_type ty op = false).
  { intros op Hop. unfold has_type.
    destruct (String.eqb_spec (ddl_type op) ty) as [Heq | _]; [| reflexivity].
    exfalso. apply Habsent, types_in_order_In. exists op. tauto. }
  clear Habsent. induction ops as [| o t IH]; cbn; [reflexivity |].
  rewrite (Hnone o (or_introl eq_refl)). apply IH.
  intros op Hop. apply Hnone. right. exact Hop.
Qed.

Lemma group_of_snoc (ty : string) (ops : list DDLOperation)
    (op : DDLOperation) :
  group_of ty (ops ++ [op])%list =
  if String.eqb ty (ddl_type op)
  then {| g_operations := (g_operations (group_of ty ops) ++ [op])%list;
          g_blocked :=
            if was_blocked op
            then (g_blocked (group_of ty ops) ++ [op])%list
            else g_blocked (group_of ty ops);
          g_fr_blocked :=
            if blocked_by_flight_recorder op
            then (g_fr_blocked (group_of ty ops) ++ [op])%list
            else g_fr_blocked (group_of ty ops) |}
  else group_of ty ops.
Proof.
  assert (Hty : has_type ty op = String.eqb ty (ddl_type op))
    by (unfold has_type; apply String.eqb_sym).
  unfold group_of, ops_of_type. cbn [g_operations g_blocked g_fr_blocked].
  rewrite List.filter_app. cbn [List.filter]. rewrite Hty.
  destruct (String.eqb ty (ddl_type op)).
  - rewrite !List.filter_app. cbn [List.filter].
    destruct (was_blocked op), (blocked_by_flight_recorder op);
      rewrite ?app_nil_r; reflexivity.
  - rewrite !app_nil_r. reflexivity.
Qed.

Lemma breakdown_step_groups (ops : list DDLOperation) (op : DDLOperation) :
  breakdown_step
    (map (fun ty => (ty, group_of ty ops)) (types_in_order ops)) op
  = map (fun ty => (ty, group_of ty (ops ++ [op])%list))
      (types_in_order (ops ++ [op])%list).
Proof.
  unfold breakdown_step.
  set (b := map (fun ty => (ty, group_of ty ops)) (types_in_order ops)).
  assert (Hfirst :
    (if dict_has (ddl_type op) b then b
     else (b ++ [(ddl_type op,
                  {| g_operations := []; g_blocked := [];
                     g_fr_blocked := [] |})])%list)
    = map (fun ty => (ty, group_of ty ops))
        (types_in_order (ops ++ [op])%list)).
  { rewrite types_in_order_snoc. subst b.
    destruct (in_dec string_dec (ddl_type op) (types_in_order ops))
      as [Hin | Hout].
    - apply (dict_has_map (fun ty => group_of ty ops)) in Hin.
      rewrite Hin. reflexivity.
    - destruct (dict_has (ddl_type op)
                  (map (fun ty => (ty, group_of ty ops)) (types_in_order ops)))
        eqn:Hhas.
      + exfalso. apply Hout.
        apply (dict_has_map (fun ty => group_of ty ops)). exact Hhas.
      + rewrite map_app. cbn [map]. unfold group_of at 3.
        rewrite (ops_of_type_absent ops _ Hout). reflexivity. }
  rewrite Hfirst. clear Hfirst b.
  pose proof (types_in_order_NoDup (ops ++ [op])%list) as Hnd.
  rewrite (dict_update_map (fun ty => group_of ty ops)) by exact Hnd.
  destruct (was_blocked op) eqn:Hwb;
    destruct (blocked_by_flight_recorder op) eqn:Hfr;
    repeat (rewrite dict_update_map by exact Hnd);
    apply map_ext_in; intros ty _; rewrite group_of_snoc, Hwb, Hfr;
    destruct (String.eqb ty (ddl_type op)); reflexivity.
Qed.

Lemma fold_breakdown_groups (ops : list DDLOperation) :
  fold_left breakdown_step ops []
  = map (fun ty => (ty, group_of ty ops)) (types_in_order ops).
Proof.
  induction ops as [| op ops IH] using rev_ind; [reflexivity |].
  rewrite fold_left_app. cbn [fold_left]. rewrite IH.
  apply breakdown_step_groups.
Qed.

Lemma group_pct_returns (part whole : list DDLOperation) :
  exists v, group_pct part whole = Ok v.
Proof.
  destruct whole as [| o t]; [eexists; reflexivity |].
  unfold group_pct. rewrite truediv_nonzero.
  - eexists. reflexivity.
  - apply inject_Z_nonzero. rewrite len_cons. pose proof (len_nonneg t). lia.
Qed.

Lemma duration_stats_count
    (math_sqrt : Q -> Q) (self : DDLAnalyzer) (ops : list DDLOperation) :
  exists s,
    duration_stats math_sqrt self (Some ops) = Ok s /\ ds_count s = len ops.
Proof.
  destruct ops as [| o t].
  - eexists. split; reflexivity.
  - destruct (duration_stats_nonempty math_sqrt self (o :: t))
      as (s & Hs & Hcount & _); [discriminate |].
    exists s. split; assumption.
Qed.

Lemma breakdown_entry_spec
    (math_sqrt : Q -> Q) (self : DDLAnalyzer) (data : type_group) :
  exists e,
    breakdown_entry math_sqrt self data = Ok e
    /\ tb_count e = len (g_operations data)
    /\ tb_blocked_count e = len (g_blocked data)
    /\ tb_fr_blocked_count e = len (g_fr_blocked data)
    /\ ds_count (tb_duration_stats e) = len (g_operations data)
    /\ (tb_blocked_duration_stats e = None <-> g_blocked data = []).
Proof.
  unfold breakdown_entry.
  destruct (group_pct_returns (g_blocked data) (g_operations data))
    as [bp Hbp].
  destruct (group_pct_returns (g_fr_blocked data) (g_operations data))
    as [fp Hfp].
  destruct (duration_stats_count math_sqrt self (g_operations data))
    as [st [Hst Hcount]].
  rewrite Hbp, Hfp. cbn [bind]. rewrite Hst. cbn [bind].
  destruct (g_blocked data) as [| o t] eqn:Hblocked.
  - cbn [bind]. eexists. split; [reflexivity |]. cbn. repeat split; auto.
  - destruct (duration_stats_count math_sqrt self (o :: t)) as [bs [Hbs _]].
    rewrite Hbs. cbn [bind]. eexists. split; [reflexivity |]. cbn.
    repeat split; auto; discriminate.
Qed.

Lemma breakdown_entries_spec
    (math_sqrt : Q -> Q) (self : DDLAnalyzer) (ops : list DDLOperation) :
  forall types : list string,
    exists entries,
      breakdown_entries math_sqrt self
        (map (fun ty => (ty, group_of ty ops)) types) = Ok entries
      /\ Forall2 (fun ty e =>
                    fst e = ty
                    /\ breakdown_entry math_sqrt self (group_of ty ops)
                       = Ok (snd e))
           types entries.
Proof.
  induction types as [| ty rest IH]; cbn [map breakdown_entries].
  - exists []. split; [reflexivity | constructor].
  - destruct (breakdown_entry_spec math_sqrt self (group_of ty ops))
      as [e [He _]].
    destruct IH as [entries [Hentries Hall]].
    rewrite He. cbn [bind]. rewrite Hentries. cbn [bind].
    exists ((ty, e) :: entries). split; [reflexivity |].
    constructor; [split; [reflexivity | exact He] | exact Hall].
Qed.

Lemma ddl_type_breakdown_spec
    (math_sqrt : Q -> Q) (ops : list DDLOperation) :
  exists entries,
    ddl_type_breakdown math_sqrt (DDLAnalyzer_init ops) = Ok entries
    /\ Forall2 (fun ty e =>
                  fst e = ty
                  /\ breakdown_entry math_sqrt (DDLAnalyzer_init ops)
                       (group_of ty ops) = Ok (snd e))
         (types_in_order ops) entries.
Proof.
  unfold ddl_type_breakdown. cbn [operations DDLAnalyzer_init].
  rewrite fold_breakdown_groups. apply breakdown_entries_spec.
Qed.

Lemma Forall2_keys {B : Type} (P : string -> string * B -> Prop)
    (types : list string) (entries : list (string * B)) :
  Forall2 (fun ty e => fst e = ty /\ P ty e) types entries ->
  map fst entries = types
  /\ forall ty e, In (ty, e) entries -> P ty (ty, e).
Proof.
  induction 1 as [| ty [k e] types entries [Hk HP] Hrest [IHkeys IHin]].
  - split; [reflexivity | intros ty e []].
  - cbn in Hk. subst k. split; [cbn; f_equal; exact IHkeys |].
    intros ty' e' [Heq | Hin]; [injection Heq as <- <-; exact HP |].
    apply IHin. exact Hin.
Qed.

Lemma len_pos_of_In {A : Type} (x : A) (l : list A) :
  In x l -> (1 <= len l)%Z.
Proof. destruct l; [intros [] | intros _; rewrite len_cons; pose proof (len_nonneg l); lia]. Qed.

Lemma filter_len_le {A : Type} (f : A -> bool) (l : list A) :
  (len (List.filter f l) <= len l)%Z.
Proof. unfold len. pose proof (filter_length_le f l). lia. Qed.

(** X13. [ddl_type_breakdown] always returns, with one entry for each
    DDL type that occurs and no other.  The entry of a type counts the
    operations of that type, those of them that were blocked and those
    blocked by the recorder, so 1 <= count and fr_blocked_count <=
    blocked_count <= count; its duration statistics cover exactly these
    operations, and blocked_duration_stats is None exactly when none of
    them was blocked. *)
Theorem ddl_type_breakdown_entries
    (math_sqrt : Q -> Q) (ops : list DDLOperation) :
  exists entries,
    ddl_type_breakdown math_sqrt (DDLAnalyzer_init ops) = Ok entries
    /\ NoDup (map fst entries)
    /\ (forall ty, In ty (map fst entries)
                   <-> exists op, In op ops /\ ddl_type op = ty)
    /\ forall ty e, In (ty, e) entries ->
         tb_count e = len (ops_of_type ty ops)
         /\ tb_blocked_count e
            = len (List.filter was_blocked (ops_of_type ty ops))
         /\ tb_fr_blocked_count e
            = len (List.filter blocked_by_flight_recorder (ops_of_type ty ops))
         /\ (1 <= tb_count e)%Z
         /\ (tb_fr_blocked_count e <= tb_blocked_count e)%Z
         /\ (tb_blocked_count e <= tb_count e)%Z
         /\ ds_count (tb_duration_stats e) = tb_count e
         /\ (tb_blocked_duration_stats e = None <-> tb_blocked_count e = 0%Z).
Proof.
  destruct (ddl_type_breakdown_spec math_sqrt ops) as [entries [Hrun Hall]].
  apply Forall2_keys in Hall as [Hkeys Hentries].
  exists entries. split; [exact Hrun |]. rewrite Hkeys.
  split; [apply types_in_order_NoDup |].
  split; [apply types_in_order_In |].
  intros ty e Hin.
  assert (Hty : In ty (types_in_order ops))
    by (rewrite <- Hkeys; apply (in_map fst _ _ Hin)).
  specialize (Hentries ty e Hin). cbn [snd] in Hentries.
  destruct (breakdown_entry_spec math_sqrt (DDLAnalyzer_init ops)
              (group_of ty ops))
    as (e' & He' & Hcount & Hblocked & Hfr & Hstats & Hnone).
  rewrite Hentries in He'. injection He' as <-.
  cbn [group_of g_operations g_blocked g_fr_blocked] in *.
  apply types_in_order_In in Hty as [op [Hop Hopty]].
  assert (Hmember : In op (ops_of_type ty ops)).
  { unfold ops_of_type. apply filter_In. split; [exact Hop |].
    unfold has_type. apply String.eqb_eq. exact Hopty. }
  assert (Hpos : (1 <= len (ops_of_type ty ops))%Z).
  { apply len_pos_of_In with (x := op). exact Hmember. }
  rewrite Hcount, Hblocked, Hfr, Hstats.
  split; [reflexivity |]. split; [reflexivity |]. split; [reflexivity |].
  split; [exact Hpos |].
  split; [unfold len; pose proof (filter_recorder_le_blocked
                                    (ops_of_type ty ops)); lia |].
  split; [apply filter_len_le |]. split; [reflexivity |].
  rewrite Hnone. unfold len. split.
  - intros ->. reflexivity.
  - intros Hzero. destruct (List.filter was_blocked (ops_of_type ty ops));
      [reflexivity | cbn in Hzero; lia].
Qed.

Lemma indicator_sum (x : string) (types : list string) :
  NoDup types ->
  fold_right (fun ty acc => ((if String.eqb x ty then 1 else 0) + acc)%Z)
    0%Z types
  = if in_dec string_dec x types then 1%Z else 0%Z.
Proof.
  induction 1 as [| ty rest Hty Hnd IH]; [reflexivity |].
  cbn [fold_right]. rewrite IH.
  destruct (String.eqb_spec x ty) as [-> | Hne].
  - destruct (in_dec string_dec ty rest) as [Hin | _].
    + exfalso. apply Hty, list_elem_of_In, Hin.
    + destruct (in_dec string_dec ty (ty :: rest)) as [_ | Hout];
        [reflexivity | exfalso; apply Hout; left; reflexivity].
  - destruct (in_dec string_dec x rest) as [Hin | Hout];
      destruct (in_dec string_dec x (ty :: rest)) as [Hin' | Hout'];
      try reflexivity.
    + exfalso. apply Hout'. right. exact Hin.
    + exfalso. destruct Hin' as [Heq | Hin']; [congruence | contradiction].
Qed.

(** Summing a filtered count over the types gives the filtered count of
    the whole list. *)
Lemma per_type_counts_add_up (keep : DDLOperation -> bool)
    (types : list string) :
  NoDup types ->
  forall ops : list DDLOperation,
    (forall op, In op ops -> In (ddl_type op) types) ->
    fold_right
      (fun ty acc => (len (List.filter keep (ops_of_type ty ops)) + acc)%Z)
      0%Z types
    = len (List.filter keep ops).
Proof.
  intros Hnd. induction ops as [| o t IH]; intros Htypes.
  - assert (Hnil : forall l : list string,
      fold_right
        (fun ty acc => (len (List.filter keep (ops_of_type ty [])) + acc)%Z)
        0%Z l = 0%Z)
      by (induction l as [| ty l IHl]; cbn [fold_right];
          [reflexivity | rewrite IHl; reflexivity]).
    rewrite Hnil. reflexivity.
  - assert (Hsplit : forall ty,
      len (List.filter keep (ops_of_type ty (o :: t)))
      = ((if String.eqb (ddl_type o) ty
          then (if keep o then 1 else 0) else 0)
         + len (List.filter keep (ops_of_type ty t)))%Z).
    { intros ty. unfold ops_of_type. cbn [List.filter]. unfold has_type at 1.
      destruct (String.eqb (ddl_type o) ty); [| lia].
      cbn [List.filter]. destruct (keep o); [rewrite len_cons |]; lia. }
    assert (Hsum : forall l : list string,
      fold_right
        (fun ty acc =>
           (len (List.filter keep (ops_of_type ty (o :: t))) + acc)%Z) 0%Z l
      = ((if keep o then 1 else 0)
         * fold_right
             (fun ty acc =>
                ((if String.eqb (ddl_type o) ty then 1 else 0) + acc)%Z)
             0%Z l
         + fold_right
             (fun ty acc =>
                (len (List.filter keep (ops_of_type ty t)) + acc)%Z) 0%Z l)%Z).
    { induction l as [| ty l IHl]; cbn [fold_right]; [lia |].
      rewrite IHl, Hsplit.
      destruct (String.eqb (ddl_type o) ty), (keep o); lia. }
    rewrite Hsum, (indicator_sum _ _ Hnd), IH
      by (intros op Hop; apply Htypes; right; exact Hop).
    destruct (in_dec string_dec (ddl_type o) types) as [_ | Hout];
      [| exfalso; apply Hout, Htypes; left; reflexivity].
    cbn [List.filter]. destruct (keep o); [rewrite len_cons |]; lia.
Qed.

Lemma filter_all {A : Type} (l : list A) : List.filter (fun _ => true) l = l.
Proof. induction l as [| x t IH]; cbn; [| rewrite IH]; reflexivity. Qed.

Lemma total_over_entries
    (math_sqrt : Q -> Q) (self : DDLAnalyzer) (ops : list DDLOperation)
    (count : type_breakdown -> Z) (h : string -> Z)
    (types : list string) (entries : list (string * type_breakdown)) :
  (forall ty e,
      breakdown_entry math_sqrt self (group_of ty ops) = Ok e ->
      count e = h ty) ->
  Forall2 (fun ty e =>
             fst e = ty
             /\ breakdown_entry math_sqrt self (group_of ty ops) = Ok (snd e))
    types entries ->
  total_over count entries = fold_right (fun ty acc => (h ty + acc)%Z) 0%Z types.
Proof.
  intros Hcount. induction 1 as [| ty e types entries [_ He] _ IH];
    [reflexivity |].
  cbn [total_over fold_right]. fold (total_over count entries).
  rewrite IH, (Hcount ty (snd e) He). reflexivity.
Qed.

(** What [blocking_analysis] computes, field by field. *)
Lemma blocking_analysis_spec (math_sqrt : Q -> Q) (ops : list DDLOperation) :
  exists r,
    blocking_analysis math_sqrt (DDLAnalyzer_init ops) = Ok r
    /\ total_blocked r = len (List.filter was_blocked ops)
    /\ fr_blocked r = len (List.filter blocked_by_flight_recorder ops)
    /\ share_pct (len (List.filter was_blocked ops)) (len ops)
       = Ok (total_blocked_pct r)
    /\ measured_block_rate ops = Ok (fr_blocked_pct r)
    /\ duration_stats math_sqrt (DDLAnalyzer_init ops)
         (Some (List.filter was_blocked ops)) = Ok (blocked_stats r)
    /\ duration_stats math_sqrt (DDLAnalyzer_init ops)
         (Some (List.filter blocked_by_flight_recorder ops))
       = Ok (fr_blocked_stats r).
Proof.
  unfold blocking_analysis, measured_block_rate, DDLAnalyzer_init.
  cbn [operations total_count].
  destruct (share_pct_returns (len (List.filter was_blocked ops)) (len ops))
    as [bp Hbp].
  destruct (share_pct_returns
              (len (List.filter blocked_by_flight_recorder ops)) (len ops))
    as [fp Hfp].
  destruct (duration_stats_returns math_sqrt
              {| operations := ops; total_count := len ops |}
              (Some (List.filter was_blocked ops))) as [bs Hbs].
  destruct (duration_stats_returns math_sqrt
              {| operations := ops; total_count := len ops |}
              (Some (List.filter blocked_by_flight_recorder ops)))
    as [fs Hfs].
  rewrite Hbp, Hfp. cbn [bind]. rewrite Hbs, Hfs. cbn [bind].
  eexists. split; [reflexivity |]. cbn. repeat split.
Qed.

(** X14. The per-type counts of [ddl_type_breakdown] add up to the
    totals of [blocking_analysis]: the counts to the number of
    operations, the blocked counts to total_blocked and the
    recorder-blocked counts to fr_blocked. *)
Theorem ddl_type_breakdown_totals
    (math_sqrt : Q -> Q) (ops : list DDLOperation) :
  exists entries r,
    ddl_type_breakdown math_sqrt (DDLAnalyzer_init ops) = Ok entries
    /\ blocking_analysis math_sqrt (DDLAnalyzer_init ops) = Ok r
    /\ total_over tb_count entries = total_count (DDLAnalyzer_init ops)
    /\ total_over tb_blocked_count entries = total_blocked r
    /\ total_over tb_fr_blocked_count entries = fr_blocked r.
Proof.
  destruct (ddl_type_breakdown_spec math_sqrt ops) as [entries [Hrun Hall]].
  destruct (blocking_analysis_spec math_sqrt ops)
    as (r & Hr & Hblocked & Hfr & _).
  exists entries, r. split; [exact Hrun |]. split; [exact Hr |].
  assert (Hcover : forall op, In op ops -> In (ddl_type op) (types_in_order ops))
    by (intros op Hop; apply types_in_order_In; exists op; tauto).
  pose proof (types_in_order_NoDup ops) as Hnd.
  rewrite Hblocked, Hfr. cbn [total_count DDLAnalyzer_init].
  split; [| split].
  - rewrite (total_over_entries math_sqrt _ ops tb_count
               (fun ty => len (List.filter (fun _ => true) (ops_of_type ty ops)))
               _ _) by
      (try exact Hall; intros ty e He;
       destruct (breakdown_entry_spec math_sqrt (DDLAnalyzer_init ops)
                   (group_of ty ops)) as (e' & He' & Hc & _);
       rewrite He in He'; injection He' as <-;
       rewrite Hc, filter_all; reflexivity).
    rewrite (per_type_counts_add_up (fun _ => true) _ Hnd ops Hcover).
    rewrite filter_all. reflexivity.
  - rewrite (total_over_entries math_sqrt _ ops tb_blocked_count
               (fun ty => len (List.filter was_blocked (ops_of_type ty ops)))
               _ _) by
      (try exact Hall; intros ty e He;
       destruct (breakdown_entry_spec math_sqrt (DDLAnalyzer_init ops)
                   (group_of ty ops)) as (e' & He' & _ & Hc & _);
       rewrite He in He'; injection He' as <-; exact Hc).
    apply (per_type_counts_add_up was_blocked _ Hnd ops Hcover).
  - rewrite (total_over_entries math_sqrt _ ops tb_fr_blocked_count
               (fun ty => len (List.filter blocked_by_flight_recorder
                                 (ops_of_type ty ops)))
               _ _) by
      (try exact Hall; intros ty e He;
       destruct (breakdown_entry_spec math_sqrt (DDLAnalyzer_init ops)
                   (group_of ty ops)) as (e' & He' & _ & _ & Hc & _);
       rewrite He in He'; injection He' as <-; exact Hc).
    apply (per_type_counts_add_up blocked_by_flight_recorder _ Hnd ops Hcover).
Qed.

(** ** ddl_analyzer.py: edge behaviour of the collision projection *)

Lemma measured_block_rate_range (ops : list DDLOperation) :
  exists rate, measured_block_rate ops = Ok rate /\ 0 <= rate /\ rate <= 100.
Proof.
  unfold measured_block_rate.
  destruct (share_pct_returns
              (len (List.filter blocked_by_flight_recorder ops)) (len ops))
    as [rate Hrate].
  exists rate. split; [exact Hrate |].
  apply (share_pct_range _ _ _ (conj (len_nonneg _) (filter_len_le _ ops)) Hrate).
Qed.

Lemma collision_probability_nonzero
    (ops : list DDLOperation) (interval_seconds operations_per_hour : Z)
    (rate : Q) :
  interval_seconds <> 0%Z ->
  measured_block_rate ops = Ok rate ->
  collision_probability (DDLAnalyzer_init ops)
    interval_seconds operations_per_hour
  = Ok {| cp_interval_seconds := interval_seconds;
          cp_collections_per_day := (86400 / interval_seconds)%Z;
          cp_operations_per_hour := operations_per_hour;
          cp_collision_probability_pct := rate;
          cp_expected_collisions_per_day :=
            inject_Z (86400 / interval_seconds) * (rate / 100)
            * inject_Z (operations_per_hour * 24);
          cp_expected_collisions_per_hour :=
            inject_Z (86400 / interval_seconds) * (rate / 100)
            * inject_Z (operations_per_hour * 24) / 24 |}.
Proof.
  intros Hinterval Hrate.
  unfold measured_block_rate in Hrate.
  unfold collision_probability, DDLAnalyzer_init.
  cbn [operations total_count]. rewrite Hrate. cbn [bind]. unfold floordiv.
  destruct (Z.eq_dec interval_seconds 0%Z) as [H0 | _]; [contradiction |].
  cbn [bind]. rewrite !truediv_nonzero by (intros H; discriminate H).
  reflexivity.
Qed.

(** X15. [collision_probability] raises ZeroDivisionError for an
    interval of 0 and returns for every other interval.  It does not
    validate the interval: above 86400 seconds it projects 0 collections
    and 0 collisions per day, and for a negative interval the number of
    collections per day is negative. *)
Theorem collision_probability_interval_edges
    (ops : list DDLOperation) (operations_per_hour : Z) :
  collision_probability (DDLAnalyzer_init ops) 0 operations_per_hour
  = Raise ZeroDivisionError
  /\ (forall interval_seconds : Z,
        interval_seconds <> 0%Z ->
        exists r,
          collision_probability (DDLAnalyzer_init ops)
            interval_seconds operations_per_hour = Ok r
          /\ ((86400 < interval_seconds)%Z ->
              cp_collections_per_day r = 0%Z
              /\ cp_expected_collisions_per_day r == 0)
          /\ ((interval_seconds < 0)%Z -> (cp_collections_per_day r < 0)%Z)).
Proof.
  destruct (measured_block_rate_range ops) as [rate [Hrate _]]. split.
  - unfold measured_block_rate in Hrate.
    unfold collision_probability, DDLAnalyzer_init.
    cbn [operations total_count]. rewrite Hrate. reflexivity.
  - intros interval_seconds Hinterval. eexists.
    split; [apply collision_probability_nonzero; eassumption |]. cbn.
    split.
    + intros Hlong. rewrite Z.div_small by lia.
      split; [reflexivity |]. change (inject_Z 0) with 0. ring.
    + intros Hneg.
      pose proof (Z.div_mod 86400 interval_seconds Hinterval) as Hdiv.
      pose proof (Z.mod_neg_bound 86400 interval_seconds Hneg) as Hmod.
      nia.
Qed.

(** X16. For positive intervals and a non-negative operation rate the
    projected collisions per day are not negative and do not grow when
    the interval gets longer. *)
Theorem collision_probability_longer_interval
    (ops : list DDLOperation) (interval interval' operations_per_hour : Z) :
  (0 < interval <= interval')%Z -> (0 <= operations_per_hour)%Z ->
  exists r r',
    collision_probability (DDLAnalyzer_init ops) interval operations_per_hour
    = Ok r
    /\ collision_probability (DDLAnalyzer_init ops) interval'
         operations_per_hour = Ok r'
    /\ 0 <= cp_expected_collisions_per_day r'
    /\ cp_expected_collisions_per_day r' <= cp_expected_collisions_per_day r.
Proof.
  intros Hinterval Hrate_nonneg.
  destruct (measured_block_rate_range ops) as [rate [Hrate [Hrate0 _]]].
  do 2 eexists.
  split; [apply collision_probability_nonzero; [lia | exact Hrate] |].
  split; [apply collision_probability_nonzero; [lia | exact Hrate] |].
  cbn [cp_expected_collisions_per_day].
  assert (Hdiv : (0 <= 86400 / interval' <= 86400 / interval)%Z).
  { split; [apply Z.div_pos; lia | apply Z.div_le_compat_l; lia]. }
  destruct Hdiv as [Hlow Hmono]. rewrite Zle_Qle in Hlow, Hmono.
  change (inject_Z 0) with 0 in Hlow.
  assert (Hops : 0 <= inject_Z (operations_per_hour * 24))
    by (change 0 with (inject_Z 0); rewrite <- Zle_Qle; lia).
  assert (Hshare : 0 <= rate / 100)
    by (apply Qle_shift_div_l; [reflexivity | lra]).
  set (c := inject_Z (86400 / interval)) in *.
  set (c' := inject_Z (86400 / interval')) in *.
  set (w := inject_Z (operations_per_hour * 24)) in *.
  set (q := rate / 100) in *. clearbody c c' w q.
  assert (Hqw : 0 <= q * w) by (apply Qmult_le_0_compat; assumption).
  rewrite <- !Qmult_assoc. split.
  - apply Qmult_le_0_compat; assumption.
  - apply Qmult_le_compat_r; assumption.
Qed.

(** ** ddl_analyzer.py: agreement between the reports *)



(** X18. When no operation is blocked by the recorder (in particular
    when there is no operation at all), [risk_assessment] reports LOW
    with the plain LOW recommendation and no high-delay qualifier,
    whatever the durations and the interval, and for a non-zero interval
    the projection of [collision_probability] is 0 collisions per
    day. *)
Theorem no_recorder_blocking_is_low_risk
    (format_fixed : nat -> Q -> string) (ops : list DDLOperation)
    (interval_seconds operations_per_hour : Z) :
  List.filter blocked_by_flight_recorder ops = [] ->
  risk_assessment format_fixed (DDLAnalyzer_init ops) interval_seconds
  = Ok ("LOW", "Safe for production use with high DDL workloads")
  /\ (interval_seconds <> 0%Z ->
      exists c,
        collision_probability (DDLAnalyzer_init ops)
          interval_seconds operations_per_hour = Ok c
        /\ cp_collision_probability_pct c == 0
        /\ cp_expected_collisions_per_day c == 0).
Proof.
  intros Hnone.
  assert (Hrate : exists rate, measured_block_rate ops = Ok rate /\ rate == 0).
  { unfold measured_block_rate. rewrite Hnone.
    destruct (Z_lt_le_dec 0 (len ops)) as [Hpos | Hzero].
    - rewrite share_pct_positive by exact Hpos. eexists.
      split; [reflexivity |]. unfold len at 1. cbn [length Z.of_nat].
      unfold Qdiv. change (inject_Z 0) with 0. ring.
    - rewrite share_pct_nonpositive by exact Hzero. eexists.
      split; reflexivity. }
  destruct Hrate as [rate [Hrate Hzero]]. split.
  - unfold measured_block_rate in Hrate.
    unfold risk_assessment, DDLAnalyzer_init. cbn [operations total_count].
    rewrite Hrate. cbn [bind]. rewrite Hnone. cbn [bind].
    assert (Hlow : Qltb rate 1 = true) by (apply Qltb_true; lra).
    rewrite Hlow. reflexivity.
  - intros Hinterval.
    eexists. split; [apply collision_probability_nonzero; eassumption |].
    cbn. split; [exact Hzero |]. rewrite Hzero. unfold Qdiv. ring.
Qed.

(** ** statistical_analysis.py: outcomes of [analyze_workload] *)

Lemma compute_confidence_interval_returns
    (math_sqrt : Q -> Q) (values : list Q) (confidence : Q) :
  (forall x : Q, 0 < x -> 0 < math_sqrt x) ->
  exists ci, compute_confidence_interval math_sqrt values confidence = Ok ci.
Proof.
  intros Hroot. unfold compute_confidence_interval.
  destruct (Z.ltb_spec (len values) 2) as [Hfew | Hmany].
  - destruct values as [| x t]; [eexists; reflexivity |].
    eexists. reflexivity.
  - assert (Hne : values <> [])
      by (intros ->; unfold len in Hmany; cbn in Hmany; lia).
    rewrite mean_returns by exact Hne. cbn [bind].
    rewrite stdev_returns by exact Hmany. cbn [bind]. unfold py_sqrt.
    assert (Hnonneg : Qltb (inject_Z (len values)) 0 = false).
    { apply Qltb_false. change 0 with (inject_Z 0). rewrite <- Zle_Qle. lia. }
    rewrite Hnonneg. cbn [bind].
    assert (Hpos : 0 < math_sqrt (inject_Z (len values))).
    { apply Hroot. change 0 with (inject_Z 0). rewrite <- Zlt_Qlt. lia. }
    rewrite truediv_nonzero by lra. cbn [bind]. eexists. reflexivity.
Qed.

Lemma compute_percentiles_returns (math_sqrt : Q -> Q) (values : list Q) :
  exists s, compute_percentiles math_sqrt values = Ok s.
Proof.
  destruct values as [| x t]; [eexists; reflexivity |].
  destruct (compute_percentiles_nonempty math_sqrt (x :: t))
    as [s [Hs _]]; [discriminate |].
  exists s. exact Hs.
Qed.

Lemma latency_impact_entry_spec (baseline_val enabled_val : Q) :
  exists entry,
    latency_impact_entry baseline_val enabled_val = Ok entry
    /\ le_baseline_ms entry = baseline_val
    /\ le_enabled_ms entry = enabled_val
    /\ (baseline_val <= 0 ->
        le_impact_pct entry = 0 /\ le_impact_ms entry = 0)
    /\ (0 < baseline_val ->
        le_impact_pct entry
        = (enabled_val - baseline_val) / baseline_val * 100
        /\ le_impact_ms entry = enabled_val - baseline_val).
Proof.
  unfold latency_impact_entry.
  destruct (Qltb 0 baseline_val) eqn:Hcmp;
    [apply Qltb_true in Hcmp | apply Qltb_false in Hcmp].
  - rewrite truediv_nonzero by lra. cbn [bind]. eexists.
    split; [reflexivity |]. cbn. repeat split; intros; exfalso; lra.
  - eexists. split; [reflexivity |]. cbn. repeat split; intros; exfalso; lra.
Qed.

Lemma latency_impact_loop_spec (bstats estats : option percentiles) :
  forall (names : list string) (acc : gmap string latency_entry),
    NoDup names ->
    exists m,
      latency_impact_loop bstats estats names acc = Ok m
      /\ (forall name, In name names ->
            exists entry,
              m !! name = Some entry
              /\ latency_impact_entry (stats_get bstats name)
                   (stats_get estats name) = Ok entry)
      /\ (forall name, ~ In name names -> m !! name = acc !! name).
Proof.
  induction names as [| name rest IH]; intros acc Hnd.
  - exists acc. split; [reflexivity |]. split.
    + intros name [].
    + intros name _. reflexivity.
  - apply NoDup_cons in Hnd as [Hfresh Hnd].
    destruct (latency_impact_entry_spec (stats_get bstats name)
                (stats_get estats name)) as [entry [Hentry _]].
    cbn [latency_impact_loop]. cbv zeta. rewrite Hentry. cbn [bind].
    destruct (IH (<[name := entry]> acc) Hnd) as [m [Hm [Hin Hout]]].
    exists m. split; [exact Hm |]. split.
    + intros k [<- | Hk]; [| apply Hin; exact Hk].
      exists entry. split; [| exact Hentry].
      rewrite Hout; [apply lookup_insert_eq |].
      intros Hk. apply Hfresh, list_elem_of_In, Hk.
    + intros k Hk. rewrite Hout.
      * apply lookup_insert_ne. intros ->. apply Hk. left. reflexivity.
      * intros Hk'. apply Hk. right. exact Hk'.
Qed.

(** [analyze_workload] on a workload with runs in both modes and a
    non-zero baseline throughput. *)
Lemma analyze_workload_analysed
    (math_sqrt : Q -> Q) (data : workload_data) (mb me : Q) :
  (forall x : Q, 0 < x -> 0 < math_sqrt x) ->
  baseline_runs data <> [] -> enabled_runs data <> [] ->
  mean (map tps (baseline_runs data)) = Ok mb ->
  mean (map tps (enabled_runs data)) = Ok me ->
  ~ mb == 0 ->
  exists a bstats estats,
    analyze_workload math_sqrt data = Ok (Analysed a)
    /\ (baseline_latencies data = [] -> bstats = None)
    /\ latency_impact_loop bstats estats latency_metric_names ∅
       = Ok (wa_latency a)
    /\ wa_tps_impact_pct a = (me - mb) / mb * 100
    /\ ts_mean (wa_tps_baseline a) = mb
    /\ ts_mean (wa_tps_enabled a) = me
    /\ ts_samples (wa_tps_baseline a) = len (baseline_runs data)
    /\ ts_samples (wa_tps_enabled a) = len (enabled_runs data)
    /\ wa_assessment a
       = assess_results (wa_tps_impact_pct a)
           (match wa_latency a !! "p99" with
            | Some e => le_impact_pct e
            | None => 0
            end)
           (match wa_latency a !! "p99" with
            | Some e => le_impact_ms e
            | None => 0
            end).
Proof.
  intros Hroot Hb He Hmb Hme Hnz. unfold analyze_workload.
  destruct (baseline_runs data) as [| rb rbs] eqn:Hbruns; [congruence |].
  destruct (enabled_runs data) as [| re res] eqn:Heruns; [congruence |].
  rewrite Hmb, Hme. cbn [bind]. rewrite truediv_nonzero by exact Hnz.
  cbn [bind].
  destruct (compute_confidence_interval_returns math_sqrt
              (map tps (rb :: rbs)) 0.95 Hroot) as [bci Hbci].
  destruct (compute_confidence_interval_returns math_sqrt
              (map tps (re :: res)) 0.95 Hroot) as [eci Heci].
  rewrite Hbci, Heci. cbn [bind].
  assert (Hbstats : exists bstats,
    match baseline_latencies data with
    | [] => Ok None
    | _ :: _ =>
        let* s := compute_percentiles math_sqrt (baseline_latencies data) in
        Ok (Some s)
    end = Ok bstats /\ (baseline_latencies data = [] -> bstats = None)).
  { destruct (baseline_latencies data) as [| x t].
    - exists None. split; reflexivity.
    - destruct (compute_percentiles_returns math_sqrt (x :: t)) as [s Hs].
      rewrite Hs. exists (Some s). split; [reflexivity | discriminate]. }
  assert (Hestats : exists estats,
    match enabled_latencies data with
    | [] => Ok None
    | _ :: _ =>
        let* s := compute_percentiles math_sqrt (enabled_latencies data) in
        Ok (Some s)
    end = Ok estats).
  { destruct (enabled_latencies data) as [| x t].
    - exists None. reflexivity.
    - destruct (compute_percentiles_returns math_sqrt (x :: t)) as [s Hs].
      rewrite Hs. exists (Some s). reflexivity. }
  destruct Hbstats as [bstats [Hbstats Hnone]].
  destruct Hestats as [estats Hestats].
  rewrite Hbstats, Hestats. cbn [bind].
  destruct (latency_impact_loop_spec bstats estats latency_metric_names ∅
              latency_metric_names_NoDup) as [m [Hm _]].
  change ["mean"; "p50"; "p95"; "p99"; "max"] with latency_metric_names.
  rewrite Hm. cbn [bind].
  destruct (guarded_stdev_returns math_sqrt (map tps (rb :: rbs)))
    as [bsd Hbsd].
  destruct (guarded_stdev_returns math_sqrt (map tps (re :: res)))
    as [esd Hesd].
  rewrite Hbsd, Hesd. cbn [bind].
  eexists. exists bstats, estats. split; [reflexivity |].
  cbn [wa_latency wa_tps_impact_pct wa_tps_baseline wa_tps_enabled
       wa_assessment ts_mean ts_samples].
  rewrite !len_map. repeat split; assumption.
Qed.

(** X19. [analyze_workload] reports insufficient data when there is no
    run in one of the two modes.  Otherwise it raises ZeroDivisionError
    when the mean baseline TPS is 0, and else returns an analysis with
    the TPS impact (enabled - baseline) / baseline * 100 of the two
    means, the numbers of runs as sample counts and exactly the five
    latency metrics.  Of [math.sqrt] this uses that the root of a
    positive number is positive. *)
Theorem analyze_workload_outcomes
    (math_sqrt : Q -> Q) (data : workload_data) :
  (forall x : Q, 0 < x -> 0 < math_sqrt x) ->
  (baseline_runs data = [] \/ enabled_runs data = [] ->
   analyze_workload math_sqrt data = Ok InsufficientData)
  /\ (baseline_runs data <> [] -> enabled_runs data <> [] ->
      exists mb me,
        mean (map tps (baseline_runs data)) = Ok mb
        /\ mean (map tps (enabled_runs data)) = Ok me
        /\ (mb == 0 ->
            analyze_workload math_sqrt data = Raise ZeroDivisionError)
        /\ (~ mb == 0 ->
            exists a,
              analyze_workload math_sqrt data = Ok (Analysed a)
              /\ wa_tps_impact_pct a = (me - mb) / mb * 100
              /\ ts_samples (wa_tps_baseline a) = len (baseline_runs data)
              /\ ts_samples (wa_tps_enabled a) = len (enabled_runs data)
              /\ forall metric,
                   is_Some (wa_latency a !! metric)
                   <-> In metric latency_metric_names)).
Proof.
  intros Hroot. split.
  - unfold analyze_workload. intros [-> | ->]; [reflexivity |].
    destruct (baseline_runs data); reflexivity.
  - intros Hb He.
    exists (sum (map tps (baseline_runs data))
            / inject_Z (len (map tps (baseline_runs data)))),
           (sum (map tps (enabled_runs data))
            / inject_Z (len (map tps (enabled_runs data)))).
    pose proof (mean_returns _ (map_nonempty tps _ Hb)) as Hmb.
    pose proof (mean_returns _ (map_nonempty tps _ He)) as Hme.
    split; [exact Hmb |]. split; [exact Hme |]. split.
    + intros Hzero. unfold analyze_workload.
      destruct (baseline_runs data) as [| rb rbs]; [congruence |].
      destruct (enabled_runs data) as [| re res]; [congruence |].
      rewrite Hmb, Hme. cbn [bind]. unfold truediv.
      apply Qeqb_true in Hzero. rewrite Hzero. reflexivity.
    + intros Hnz.
      destruct (analyze_workload_analysed math_sqrt data _ _
                  Hroot Hb He Hmb Hme Hnz)
        as (a & bstats & estats & Hrun & _ & Hloop & Himpact & _ & _
            & Hbn & Hen & _).
      exists a. split; [exact Hrun |]. split; [exact Himpact |].
      split; [exact Hbn |]. split; [exact Hen |].
      destruct (latency_impact_loop_spec bstats estats latency_metric_names ∅
                  latency_metric_names_NoDup) as [m [Hm [Hin Hout]]].
      rewrite Hloop in Hm. injection Hm as <-.
      intros metric. split.
      * intros Hsome.
        destruct (in_dec string_dec metric latency_metric_names)
          as [Hyes | Hno]; [exact Hyes |].
        rewrite (Hout metric Hno), lookup_empty in Hsome.
        destruct Hsome as [x Hx]. discriminate Hx.
      * intros Hmetric. destruct (Hin metric Hmetric) as [entry [Hentry _]].
        exists entry. exact Hentry.
Qed.

(** X20. When the baseline latency log is empty, every latency entry of
    the analysis has baseline 0 and impacts 0, whatever the enabled
    latencies are; the p99 status is then OK and the overall verdict
    follows from the TPS status alone. *)
Theorem analyze_workload_without_baseline_latencies
    (math_sqrt : Q -> Q) (data : workload_data) (mb me : Q) :
  (forall x : Q, 0 < x -> 0 < math_sqrt x) ->
  baseline_runs data <> [] -> enabled_runs data <> [] ->
  mean (map tps (baseline_runs data)) = Ok mb ->
  mean (map tps (enabled_runs data)) = Ok me ->
  ~ mb == 0 ->
  baseline_latencies data = [] ->
  exists a,
    analyze_workload math_sqrt data = Ok (Analysed a)
    /\ (forall metric entry,
          wa_latency a !! metric = Some entry ->
          le_baseline_ms entry = 0
          /\ le_impact_pct entry = 0 /\ le_impact_ms entry = 0)
    /\ p99_status (wa_assessment a) = "OK"
    /\ overall (wa_assessment a)
       = verdict_of_rank (status_rank (tps_status (wa_assessment a))).
Proof.
  intros Hroot Hb He Hmb Hme Hnz Hnolog.
  destruct (analyze_workload_analysed math_sqrt data mb me
              Hroot Hb He Hmb Hme Hnz)
    as (a & bstats & estats & Hrun & Hnone & Hloop & _ & _ & _ & _ & _ & Hassess).
  rewrite (Hnone Hnolog) in Hloop.
  destruct (latency_impact_loop_spec None estats latency_metric_names ∅
              latency_metric_names_NoDup) as [m [Hm [Hin Hout]]].
  rewrite Hloop in Hm. injection Hm as <-.
  assert (Hzero : forall metric entry,
    wa_latency a !! metric = Some entry ->
    le_baseline_ms entry = 0
    /\ le_impact_pct entry = 0 /\ le_impact_ms entry = 0).
  { intros metric entry Hentry.
    destruct (in_dec string_dec metric latency_metric_names) as [Hyes | Hno].
    - destruct (Hin metric Hyes) as [entry' [Hentry' Hcalc]].
      rewrite Hentry in Hentry'. injection Hentry' as <-.
      cbn [stats_get] in Hcalc.
      destruct (latency_impact_entry_spec 0 (stats_get estats metric))
        as (e & He' & Hbase & _ & Hle & _).
      rewrite Hcalc in He'. injection He' as <-.
      split; [exact Hbase |]. apply Hle. apply Qle_refl.
    - rewrite (Hout metric Hno), lookup_empty in Hentry. discriminate Hentry. }
  exists a. split; [exact Hrun |]. split; [exact Hzero |].
  assert (Hp99 : (match wa_latency a !! "p99" with
                  | Some e => le_impact_pct e
                  | None => 0
                  end) = 0
                 /\ (match wa_latency a !! "p99" with
                     | Some e => le_impact_ms e
                     | None => 0
                     end) = 0).
  { destruct (wa_latency a !! "p99") as [e |] eqn:He99; [| split; reflexivity].
    destruct (Hzero "p99" e He99) as (_ & Hpct & Hms). split; assumption. }
  destruct Hp99 as [Hpct Hms]. rewrite Hpct, Hms in Hassess.
  rewrite Hassess. unfold assess_results.
  cbn [p99_status overall tps_status].
  destruct (Qltb (wa_tps_impact_pct a) (-3));
    [| destruct (Qltb (wa_tps_impact_pct a) (-1))]; split; reflexivity.
Qed.

(** ** statistical_analysis.py: monotonicity of [assess_results] *)

Lemma tps_status_rank_mono (t t' p m p' m' : Q) :
  t' <= t ->
  (status_rank (tps_status (assess_results t p m))
   <= status_rank (tps_status (assess_results t' p' m')))%nat.
Proof.
  intros Ht. unfold assess_results. cbn [tps_status].
  case_Qltb; cbn; try lia; exfalso; lra.
Qed.

Lemma p99_status_rank_mono (t t' p m p' m' : Q) :
  p <= p' -> m <= m' ->
  (status_rank (p99_status (assess_results t p m))
   <= status_rank (p99_status (assess_results t' p' m')))%nat.
Proof.
  intros Hp Hm. unfold assess_results. cbn [p99_status].
  case_Qltb; cbn; try lia; exfalso; lra.
Qed.

Lemma overall_rank (t p m : Q) :
  verdict_rank (overall (assess_results t p m))
  = Nat.max (status_rank (tps_status (assess_results t p m)))
            (status_rank (p99_status (assess_results t p m))).
Proof.
  unfold assess_results. cbn [overall tps_status p99_status].
  destruct (Qltb t (-3)); [| destruct (Qltb t (-1))];
    (destruct (Qltb 15 p && Qltb 5 m);
     [| destruct (Qltb 5 p && Qltb 2 m)]); reflexivity.
Qed.

(** X21. [assess_results] is monotone: when the TPS impact does not
    rise and neither p99 impact falls, no status and not the overall
    verdict gets better (OK < WARNING < CRITICAL, PASS < WARNING <
    FAIL). *)
Theorem assess_results_monotone (t t' p p' m m' : Q) :
  t' <= t -> p <= p' -> m <= m' ->
  (status_rank (tps_status (assess_results t p m))
   <= status_rank (tps_status (assess_results t' p' m')))%nat
  /\ (status_rank (p99_status (assess_results t p m))
      <= status_rank (p99_status (assess_results t' p' m')))%nat
  /\ (verdict_rank (overall (assess_results t p m))
      <= verdict_rank (overall (assess_results t' p' m')))%nat.
Proof.
  intros Ht Hp Hm.
  pose proof (tps_status_rank_mono t t' p m p' m' Ht) as Htps.
  pose proof (p99_status_rank_mono t t' p m p' m' Hp Hm) as Hp99.
  split; [exact Htps |]. split; [exact Hp99 |].
  rewrite !overall_rank. lia.
Qed.

(** ** Concrete runs of the further properties *)

Lemma babylonian_sqrt_positive (x : Q) : 0 < x -> 0 < babylonian_sqrt x.
Proof. intros Hx. apply babylonian_sqrt_pos. lra. Qed.

Lemma sample_run_has_latency_metrics : has_latency_metrics sample_run.
Proof.
  intros metric Hmetric.
  repeat (destruct Hmetric as [<- | Hmetric]; [eexists; reflexivity |]).
  destruct Hmetric.
Qed.

(** X3, from impacts of 1 and 1 to impacts of -25 and 3. *)
Lemma assess_impact_monotone_witness :
  exists s s',
    assess_impact 1 1 = severity_label s
    /\ assess_impact (-25) 3 = severity_label s'
    /\ (severity_rank s <= severity_rank s')%nat.
Proof.
  apply (assess_impact_monotone 1 1 (-25) 3); vm_compute; discriminate.
Defined.

(** X7, on the sample results file. *)
Lemma compare_runs_same_file_witness :
  exists c,
    compare_runs show_int_part sample_run sample_run
    = Ok (c, severity_label NEGLIGIBLE)
    /\ tc_impact_pct (cmp_throughput c) == 0
    /\ (forall metric entry,
          cmp_latency c !! metric = Some entry -> lc_impact_pct entry == 0)
    /\ (forall key entry,
          cmp_database_stats c !! key = Some entry ->
          sc_impact_pct entry == 0 /\ sc_baseline entry = sc_test entry).
Proof.
  apply (compare_runs_same_file show_int_part sample_run).
  - eexists. reflexivity.
  - exact sample_run_has_latency_metrics.
  - exact (has_counters_snapshots 10 30).
Defined.

(** X9, on the values 0 and 1. *)
Lemma percentile_index_behaviour_witness :
  ((1 <= int_ 95 <= 99)%Z ->
   percentile [0; 1] 95
   = Ok (quantile_point (sorted [0; 1]) (len [0; 1]) 100 (int_ 95)))
  /\ ((-98 <= int_ 95 <= 0)%Z ->
      percentile [0; 1] 95
      = Ok (quantile_point (sorted [0; 1]) (len [0; 1]) 100 (int_ 95 + 99)))
  /\ ((100 <= int_ 95 \/ int_ 95 <= -99)%Z ->
      percentile [0; 1] 95 = Raise IndexError).
Proof.
  apply (percentile_index_behaviour [0; 1] 95). vm_compute. discriminate.
Defined.

(** X10, on two operations. *)
Lemma duration_stats_range_and_mean_witness :
  exists s,
    duration_stats babylonian_sqrt (DDLAnalyzer_init two_durations)
      (Some two_durations) = Ok s
    /\ ds_count s = len two_durations
    /\ In (ds_min s) (map duration_ms two_durations)
    /\ In (ds_max s) (map duration_ms two_durations)
    /\ (forall op, In op two_durations ->
          ds_min s <= duration_ms op /\ duration_ms op <= ds_max s)
    /\ ds_min s <= ds_mean s /\ ds_mean s <= ds_max s.
Proof.
  apply (duration_stats_range_and_mean babylonian_sqrt
           (DDLAnalyzer_init two_durations) two_durations).
  discriminate.
Defined.

(** X11, on two operations of 10 ms, written as 10 and 20/2. *)
Lemma duration_stats_constant_sample_witness :
  exists s,
    duration_stats babylonian_sqrt (DDLAnalyzer_init [])
      (Some [sample_op 10 false None; sample_op (20 # 2) false None]) = Ok s
    /\ ds_min s == 10 /\ ds_max s == 10 /\ ds_mean s == 10
    /\ ds_median s == 10.
Proof.
  apply (duration_stats_constant_sample babylonian_sqrt (DDLAnalyzer_init [])
           [sample_op 10 false None; sample_op (20 # 2) false None] 10).
  - discriminate.
  - intros op [<- | [<- | []]]; reflexivity.
Defined.

(** X12, on three samples. *)
Lemma compute_percentiles_reports_samples_witness :
  exists s,
    compute_percentiles babylonian_sqrt [3; 1; 2] = Ok s
    /\ In (pc_p50 s) [3; 1; 2] /\ In (pc_p95 s) [3; 1; 2]
    /\ In (pc_p99 s) [3; 1; 2] /\ In (pc_max s) [3; 1; 2]
    /\ (forall x, In x [3; 1; 2] -> x <= pc_max s)
    /\ pc_mean s <= pc_max s.
Proof.
  apply (compute_percentiles_reports_samples babylonian_sqrt [3; 1; 2]).
  discriminate.
Defined.

(** X16, from the normal interval of 180 s to the emergency interval of
    300 s. *)
Lemma collision_probability_longer_interval_witness :
  exists r r',
    collision_probability (DDLAnalyzer_init one_in_fifty) 180 100 = Ok r
    /\ collision_probability (DDLAnalyzer_init one_in_fifty) 300 100 = Ok r'
    /\ 0 <= cp_expected_collisions_per_day r'
    /\ cp_expected_collisions_per_day r' <= cp_expected_collisions_per_day r.
Proof.
  apply (collision_probability_longer_interval one_in_fifty 180 300 100); lia.
Defined.

(** X18, on two unblocked operations. *)
Lemma no_recorder_blocking_is_low_risk_witness :
  risk_assessment show_int_part (DDLAnalyzer_init two_durations) 180
  = Ok ("LOW", "Safe for production use with high DDL workloads")
  /\ exists c,
       collision_probability (DDLAnalyzer_init two_durations) 180 100 = Ok c
       /\ cp_collision_probability_pct c == 0
       /\ cp_expected_collisions_per_day c == 0.
Proof.
  destruct (no_recorder_blocking_is_low_risk show_int_part two_durations
              180 100 eq_refl) as [Hrisk Hprojection].
  split; [exact Hrisk | apply Hprojection; discriminate].
Defined.

(** X19, with the sample square root, on a workload without baseline
    latencies. *)
Lemma analyze_workload_outcomes_witness :
  exists a,
    analyze_workload babylonian_sqrt workload_without_baseline_log
    = Ok (Analysed a)
    /\ ts_samples (wa_tps_baseline a) = 1%Z
    /\ ts_samples (wa_tps_enabled a) = 1%Z
    /\ forall metric,
         is_Some (wa_latency a !! metric) <-> In metric latency_metric_names.
Proof.
  destruct (analyze_workload_outcomes babylonian_sqrt
              workload_without_baseline_log babylonian_sqrt_positive)
    as [_ Hruns].
  destruct Hruns as (mb & me & Hmb & _ & _ & Hrun); try discriminate.
  destruct Hrun as (a & Ha & _ & Hbn & Hen & Hkeys).
  - injection Hmb as <-. intros Hzero. discriminate Hzero.
  - exists a. repeat split; try assumption; apply Hkeys.
Defined.

(** X20, on the same workload. *)
Lemma analyze_workload_without_baseline_latencies_witness :
  exists a,
    analyze_workload babylonian_sqrt workload_without_baseline_log
    = Ok (Analysed a)
    /\ (forall metric entry,
          wa_latency a !! metric = Some entry ->
          le_baseline_ms entry = 0
          /\ le_impact_pct entry = 0 /\ le_impact_ms entry = 0)
    /\ p99_status (wa_assessment a) = "OK"
    /\ overall (wa_assessment a)
       = verdict_of_rank (status_rank (tps_status (wa_assessment a))).
Proof.
  apply (analyze_workload_without_baseline_latencies babylonian_sqrt
           workload_without_baseline_log 100 100).
  - exact babylonian_sqrt_positive.
  - discriminate.
  - discriminate.
  - reflexivity.
  - reflexivity.
  - intros Hzero. discriminate Hzero.
  - reflexivity.
Defined.

(** X21, from impacts (-0.5, 20, 1) to impacts (-4, 20, 10). *)
Lemma assess_results_monotone_witness :
  (status_rank (tps_status (assess_results (-0.5) 20 1))
   <= status_rank (tps_status (assess_results (-4) 20 10)))%nat
  /\ (status_rank (p99_status (assess_results (-0.5) 20 1))
      <= status_rank (p99_status (assess_results (-4) 20 10)))%nat
  /\ (verdict_rank (overall (assess_results (-0.5) 20 1))
      <= verdict_rank (overall (assess_results (-4) 20 10)))%nat.
Proof.
  apply (assess_results_monotone (-0.5) (-4) 20 20 1 10);
    vm_compute; discriminate.
Defined.
